(** * mcp-house-rules: the server of [src/index.ts]

    A shallow embedding of the request handlers (list-prompts, get-prompt,
    list-tools, call-tool), of the zod schema [GitContextSchema] that guards
    the tool, of the promise-returning [execFileAsync] the tool shells out
    with, and of [log] and [main].

    Conventions.
    - A JavaScript string is a [string]; its characters stand for code units
      below 256.
    - A JavaScript number that arrived in a JSON frame is a finite double,
      hence a rational: [Q].
    - A JavaScript object used as an argument bag is a [gmap string json].
    - An [async] body is a value of the free monad [proc]: it returns, throws,
      or calls [execFile] and continues with however that call ends.
    - The world a body runs in answers its calls of [execFile], and has
      surroundings (a clock, counters) that move on between calls. *)

From Stdlib Require Import Ascii String DecimalString DecimalPos DecimalZ QArith.
From stdpp Require Import gmap strings list fin_maps.

Local Open Scope string_scope.
Local Open Scope list_scope.

(** ** JSON values *)

#[warnings="-register-all"]
Inductive json : Type :=
| JNull
| JBool (b : bool)
| JNum (n : Q)
| JStr (s : string)
| JArr (l : list json)
| JObj (m : gmap string json).

(** [typeof v === "string"] *)
Definition typeof_string (v : option json) : option string :=
  match v with
  | Some (JStr s) => Some s
  | _ => None
  end.

(** ** String primitives *)

Module JsString.

(** [WhiteSpace] and [LineTerminator] of ECMAScript, among the code units
    below 256: TAB, LF, VT, FF, CR, SP and NBSP. *)
Definition isWhiteSpace (c : ascii) : bool :=
  let n := nat_of_ascii c in
  ((9 <=? n)%nat && (n <=? 13)%nat) || (n =? 32)%nat || (n =? 160)%nat.

Definition isEmpty (s : string) : bool :=
  match s with
  | EmptyString => true
  | String _ _ => false
  end.

Fixpoint trimStart (s : string) : string :=
  match s with
  | EmptyString => EmptyString
  | String c s' => if isWhiteSpace c then trimStart s' else s
  end.

Fixpoint trimEnd (s : string) : string :=
  match s with
  | EmptyString => EmptyString
  | String c s' =>
      let t := trimEnd s' in
      if isWhiteSpace c && isEmpty t then EmptyString else String c t
  end.

(** [String.prototype.trim] *)
Definition trim (s : string) : string := trimEnd (trimStart s).

(** [s.split(sep)] for a one-character separator. *)
Fixpoint split (sep : ascii) (s : string) : list string :=
  match s with
  | EmptyString => [EmptyString]
  | String c s' =>
      if Ascii.eqb c sep then EmptyString :: split sep s'
      else match split sep s' with
           | h :: t => String c h :: t
           | [] => [String c EmptyString]
           end
  end.

(** [xs.join(sep)] *)
Fixpoint join (sep : string) (xs : list string) : string :=
  match xs with
  | [] => ""
  | [x] => x
  | x :: xs' => x +:+ sep +:+ join sep xs'
  end.

Definition LF : ascii := ascii_of_nat 10.
Definition nl : string := String LF EmptyString.

(** [String(n)] for a number [n]. The digits are those of the integral part:
    for the integral numbers, which are all that [GitContextSchema] lets
    through (see [GitContextSchema_range]), this is the decimal numeral that
    [Number::toString] yields. *)
Definition String_of_number (n : Q) : string :=
  DecimalString.NilZero.string_of_int (Z.to_int (Qnum n / Zpos (Qden n))).

End JsString.

(** ** zod: the combinators [GitContextSchema] is built from *)

Module Zod.

Inductive ZodIssueCode := invalid_type | too_small | too_big.

Record ZodIssue := mkIssue { code : ZodIssueCode; path : list string }.

(** What [_parse] hands back: [Aborted] when the input has the wrong type and
    no value can be produced, otherwise the value with the issues its checks
    raised (none: valid; some: dirty). *)
Inductive ParseReturn (A : Type) : Type :=
| Aborted (issues : list ZodIssue)
| Parsed (value : A) (issues : list ZodIssue).
Arguments Aborted {A} issues.
Arguments Parsed {A} value issues.

(** A schema reads the input found at [path]; [None] is [undefined]. *)
Definition ZodType (A : Type) : Type := list string -> option json -> ParseReturn A.

(** One chained check: every check of a schema runs, each adding its issue. *)
Definition check {A : Type} (ok : A -> bool) (c : ZodIssueCode) (s : ZodType A) : ZodType A :=
  fun p v =>
    match s p v with
    | Aborted iss => Aborted iss
    | Parsed a iss => Parsed a (if ok a then iss else iss ++ [mkIssue c p])
    end.

(** [z.string()] *)
Definition string : ZodType String.string :=
  fun p v =>
    match v with
    | Some (JStr s) => Parsed s []
    | _ => Aborted [mkIssue invalid_type p]
    end.

(** [z.number()] *)
Definition number : ZodType Q :=
  fun p v =>
    match v with
    | Some (JNum n) => Parsed n []
    | _ => Aborted [mkIssue invalid_type p]
    end.

(** [Number.isInteger] *)
Definition isInteger (n : Q) : bool := (Qnum n mod Zpos (Qden n) =? 0)%Z.

(** [.min(k)] on a string: at least [k] code units. *)
Definition min_length (k : nat) : ZodType String.string -> ZodType String.string :=
  check (fun s => (k <=? String.length s)%nat) too_small.

(** [.int()], [.min(k)] and [.max(k)] on a number. *)
Definition int : ZodType Q -> ZodType Q := check isInteger invalid_type.
Definition min (k : Q) : ZodType Q -> ZodType Q := check (fun n => Qle_bool k n) too_small.
Definition max (k : Q) : ZodType Q -> ZodType Q := check (fun n => Qle_bool n k) too_big.

(** [.default(d)]: an [undefined] input is replaced by [d] before the inner
    schema sees it. *)
Definition default {A : Type} (d : json) (s : ZodType A) : ZodType A :=
  fun p v =>
    match v with
    | None => s p (Some d)
    | Some _ => s p v
    end.

Definition issues_of {A : Type} (r : ParseReturn A) : list ZodIssue :=
  match r with
  | Aborted iss => iss
  | Parsed _ iss => iss
  end.

(** [z.object({k1: s1, k2: s2})] in its default "strip" mode: the input must
    be an object; each key of the shape is read from it (a missing key reads
    as [undefined]) and parsed by its schema, the issues of all keys are
    collected, and the result is built from the shape's keys alone, so a key
    that is not in the shape is neither read nor kept. *)
Definition object2 {A B C : Type} (k1 : String.string) (s1 : ZodType A)
    (k2 : String.string) (s2 : ZodType B) (build : A -> B -> C) : ZodType C :=
  fun p v =>
    match v with
    | Some (JObj m) =>
        let r1 := s1 (p ++ [k1]) (m !! k1) in
        let r2 := s2 (p ++ [k2]) (m !! k2) in
        match r1, r2 with
        | Parsed a iss1, Parsed b iss2 => Parsed (build a b) (iss1 ++ iss2)
        | _, _ => Aborted (issues_of r1 ++ issues_of r2)
        end
    | _ => Aborted [mkIssue invalid_type p]
    end.

(** [schema.parse(input)]: the value when no issue was raised, otherwise the
    issues, which the caller throws as a [ZodError]. *)
Definition parse {A : Type} (s : ZodType A) (input : option json) : A + list ZodIssue :=
  match s [] input with
  | Parsed a [] => inl a
  | Parsed _ iss => inr iss
  | Aborted iss => inr iss
  end.

End Zod.

(** ** [GitContextSchema] (index.ts, lines 92-95) *)

Record GitContextArgs := mkArgs { repoPath : string; maxCommits : Q }.

Definition GitContextSchema : Zod.ZodType GitContextArgs :=
  Zod.object2
    "repoPath" (Zod.min_length 1 Zod.string)
    "maxCommits" (Zod.default (JNum 15) (Zod.max 50 (Zod.min 1 (Zod.int Zod.number))))
    mkArgs.

(** ** Child processes and asynchronous bodies *)

(** What [execFile] is given: the program and its discrete argument list.
    Nothing here is a shell command line. *)
Record Invocation := mkInvocation { file : string; args : list string }.

(** What a fulfilled [execFileAsync] promise carries. *)
Record ExecOutput := mkOutput { stdout : string; stderr : string }.

(** What a rejected one carries: the child could not be started, or it ended
    with a non-zero status. *)
Inductive ExecException :=
| SpawnFailure (errno : string)
| ExitFailure (status : Z) (out : ExecOutput).

(** How one call of [execFileAsync] ends. Node may refuse the arguments and
    throw on the spot, before a child or a promise exists ([Thrown], with
    Node's error code: it does so for an argument that holds a NUL code
    unit); otherwise a child is started and the promise is fulfilled or
    rejected. *)
Inductive settled :=
| Resolved (out : ExecOutput)
| Rejected (e : ExecException)
| Thrown (code : string).

(** What an [async] body can throw: an [Error] of the handlers' own, a
    [ZodError], the rejection of a child, or the [TypeError] with which Node
    refuses a call. *)
Inductive exception :=
| Error (message : string)
| ZodError (issues : list Zod.ZodIssue)
| ExecError (e : ExecException)
| TypeError (code : string).

(** An [async] body: it returns, it throws, it calls [execFile] and goes on
    with however that call ends, or it takes a look at something that can
    differ from one call to the next (the clock, a random draw, a counter
    the module keeps) and goes on with what it saw. Neither handler of
    index.ts does the last; the constructor is what lets that be stated. *)
Inductive proc (A : Type) : Type :=
| Return (a : A)
| Throw (e : exception)
| Spawn (i : Invocation) (k : settled -> proc A)
| Glance (k : nat -> proc A).
Arguments Return {A} a.
Arguments Throw {A} e.
Arguments Spawn {A} i k.
Arguments Glance {A} k.

(** [await p] followed by the rest of the body. *)
Fixpoint bind {A B : Type} (p : proc A) (f : A -> proc B) : proc B :=
  match p with
  | Return a => f a
  | Throw e => Throw e
  | Spawn i k => Spawn i (fun r => bind (k r) f)
  | Glance k => Glance (fun n => bind (k n) f)
  end.

(** [p.catch(h)] *)
Fixpoint catch {A : Type} (p : proc A) (h : exception -> proc A) : proc A :=
  match p with
  | Return a => Return a
  | Throw e => h e
  | Spawn i k => Spawn i (fun r => catch (k r) h)
  | Glance k => Glance (fun n => catch (k n) h)
  end.

#[global] Instance proc_ret : MRet proc := @Return.
#[global] Instance proc_bind : MBind proc := fun A B f p => bind p f.
(** [p.then(f)] for a callback [f] that cannot throw. *)
#[global] Instance proc_fmap : FMap proc := fun A B f p => bind p (fun a => Return (f a)).

(** [promisify(execFile)], with what the caller chains on the promise it
    hands back ([.then], [.catch]). When Node refuses the arguments the call
    itself throws: there is no promise yet, so nothing that is chained sees
    the error and the body throws it. Otherwise the chain is applied to a
    promise that is fulfilled with the output or rejected with the failure
    of the child (it could not be started, it exited with an error). *)
Definition execFileAsync {B : Type} (file : string) (args : list string)
    (chained : proc ExecOutput -> proc B) : proc B :=
  Spawn (mkInvocation file args)
    (fun r => match r with
              | Thrown code => Throw (TypeError code)
              | Resolved out => chained (Return out)
              | Rejected e => chained (Throw (ExecError e))
              end).

(** [schema.parse(input)] inside a body: the value, or a thrown [ZodError]. *)
Definition parse {A : Type} (s : Zod.ZodType A) (input : option json) : proc A :=
  match Zod.parse s input with
  | inl a => Return a
  | inr iss => Throw (ZodError iss)
  end.

(** ** Running a body against the outside world *)

Inductive outcome (A : Type) : Type :=
| Returned (a : A)
| Threw (e : exception).
Arguments Returned {A} a.
Arguments Threw {A} e.

(** One look at what can differ from one call to the next in a world: the
    clock ([Date.now()]), a random draw ([Math.random()]), a counter kept
    between calls. *)
Class Surroundings (World : Type) := glance : World -> nat * World.

Section Run.

(** The world the server runs in: a state (the file system, the clock, the
    repositories), what a look at the surroundings gives in it, and what a
    call of [execFile] does in it. *)
Context {World : Type} `{Surroundings World}
        (execFile : World -> Invocation -> settled * World).

(** The outcome of a body started in world [w], the calls of [execFile] it
    made with how each ended, in order, and the world it leaves. A child
    process was started for every call that did not end [Thrown]. *)
Fixpoint run {A : Type} (p : proc A) (w : World)
    : outcome A * list (Invocation * settled) * World :=
  match p with
  | Return a => (Returned a, [], w)
  | Throw e => (Threw e, [], w)
  | Spawn i k =>
      let '(r, w1) := execFile w i in
      let '(o, t, w2) := run (k r) w1 in
      (o, (i, r) :: t, w2)
  | Glance k =>
      let '(n, w1) := glance w in
      run (k n) w1
  end.

Definition result {A : Type} (p : proc A) (w : World) : outcome A := (run p w).1.1.
Definition trace {A : Type} (p : proc A) (w : World) : list (Invocation * settled) := (run p w).1.2.
Definition after {A : Type} (p : proc A) (w : World) : World := (run p w).2.

End Run.

(** ** Protocol values *)

(** [request.params] of a get-prompt or call-tool request; [arguments] is
    optional in both. *)
Record RequestParams := mkParams { name : string; arguments : option json }.

(** [{ type: "text", text }] *)
Inductive ContentBlock := TextContent (text : string).

Record PromptMessage := mkMessage { role : string; content : list ContentBlock }.

Record GetPromptResult := mkPrompt { description : string; messages : list PromptMessage }.

Record CallToolResult := mkToolResult { tool_content : list ContentBlock }.

(** [request.params.arguments?.mode]: a property read that yields
    [undefined] unless [arguments] is an object with that key. *)
Definition optional_get (o : option json) (key : string) : option json :=
  match o with
  | Some (JObj m) => m !! key
  | _ => None
  end.

Import JsString.

(** ** The get-prompt handler (index.ts, lines 53-89) *)

Definition house_rules_text (mode : string) : string :=
  join nl [
    "You are my coding assistant.";
    "";
    "Operating rules:";
    "1) Prefer safe and reversible actions. Start read-only.";
    "2) Summarize what you plan to do before you do it.";
    "3) Keep scope small. If a task is large, propose the smallest next step.";
    "4) Be explicit. Use checklists and concrete commands.";
    "5) If you are blocked, ask one clarifying question. Otherwise proceed.";
    "";
    "Mode: " +:+ mode;
    "";
    "When using tools:";
    "- Explain which tool you are calling and why.";
    "- If a tool can mutate data, confirm intent first."
  ].

Definition GetPromptHandler (params : RequestParams) : proc GetPromptResult :=
  if negb (String.eqb (name params) "house_rules") then
    Throw (Error ("Unknown prompt: " +:+ name params))
  else
    let mode :=
      match typeof_string (optional_get (arguments params) "mode") with
      | Some s => s
      | None => "general"
      end in
    let text := house_rules_text mode in
    Return (mkPrompt "My reusable assistant rules"
                     [mkMessage "user" [TextContent text]]).

(** ** The call-tool handler (index.ts, lines 121-194) *)

Definition payload (branch commits diffstat : string) : string :=
  join nl [
    "# Repo Context";
    "- Branch: " +:+ branch;
    "";
    "## Recent commits";
    (if isEmpty commits then "- None"
     else join nl (map (fun l => "- " +:+ l) (split LF commits)));
    "";
    "## Latest commit diffstat";
    "```";
    diffstat;
    "```"
  ].

Definition CallToolHandler (params : RequestParams) : proc CallToolResult :=
  if negb (String.eqb (name params) "git_context") then
    Throw (Error ("Unknown tool: " +:+ name params))
  else
    args ← parse GitContextSchema (arguments params);
    (* Quick guardrail: fail nicely if this isn't a repo. *)
    isRepo ← execFileAsync "git"
      ["-C"; repoPath args; "rev-parse"; "--is-inside-work-tree"]
      (fun promise =>
         catch ((fun r => String.eqb (trim (stdout r)) "true") <$> promise)
               (fun _ => Return false));
    if negb isRepo then
      Return (mkToolResult [TextContent ("Not a git repository: " +:+ repoPath args)])
    else
      (* Branch *)
      branch ← execFileAsync "git"
        ["-C"; repoPath args; "rev-parse"; "--abbrev-ref"; "HEAD"]
        (fun promise => (fun r => trim (stdout r)) <$> promise);
      (* Recent commits *)
      commits ← execFileAsync "git"
        ["-C"; repoPath args; "log"; "-n"; String_of_number (maxCommits args);
         "--pretty=format:%h %s"]
        (fun promise => (fun r => trim (stdout r)) <$> promise);
      (* Diffstat vs latest commit *)
      diffstat ← execFileAsync "git"
        ["-C"; repoPath args; "show"; "--stat"; "--oneline"; "-1"]
        (fun promise => (fun r => trim (stdout r)) <$> promise);
      Return (mkToolResult [TextContent (payload branch commits diffstat)]).

(** ** Registration (index.ts, lines 53 and 121) *)

(** The issues that [z.optional(z.record(s))] raises on [params.arguments],
    [s] being given by the issues it raises on one value: none when the
    arguments are absent, those of the values when they are an object, and
    a type issue otherwise. *)
Definition record_issues (value_issues : list string -> json -> list Zod.ZodIssue)
    (p : list string) (v : option json) : list Zod.ZodIssue :=
  match v with
  | None => []
  | Some (JObj m) =>
      concat (map (fun kv : string * json => value_issues (p ++ [kv.1]) kv.2)
                  (map_to_list m))
  | Some _ => [Zod.mkIssue Zod.invalid_type p]
  end.

(** The request schemas of the SDK that the two handlers are registered
    under, as far as [params.arguments] goes: a get-prompt request takes a
    record of strings, a call-tool request a record of anything. *)
Definition GetPromptRequestSchema (params : RequestParams) : list Zod.ZodIssue :=
  record_issues (fun p x => Zod.issues_of (Zod.string p (Some x)))
                ["params"; "arguments"] (arguments params).

Definition CallToolRequestSchema (params : RequestParams) : list Zod.ZodIssue :=
  record_issues (fun _ _ => []) ["params"; "arguments"] (arguments params).

(** [server.setRequestHandler(schema, handler)]: the SDK parses a request
    with the schema, and calls the handler only with a request that passes;
    otherwise the [ZodError] is what the request ends with. *)
Definition setRequestHandler {R : Type} (schema : RequestParams -> list Zod.ZodIssue)
    (handler : RequestParams -> proc R) (request : RequestParams) : proc R :=
  match schema request with
  | [] => handler request
  | iss => Throw (ZodError iss)
  end.

(** What the server does with a get-prompt and with a call-tool request. *)
Module server.
Definition get_prompt : RequestParams -> proc GetPromptResult :=
  setRequestHandler GetPromptRequestSchema GetPromptHandler.
Definition call_tool : RequestParams -> proc CallToolResult :=
  setRequestHandler CallToolRequestSchema CallToolHandler.
End server.

(** The four invocations, by name. *)
Definition probe_invocation (path : string) : Invocation :=
  mkInvocation "git" ["-C"; path; "rev-parse"; "--is-inside-work-tree"].
Definition branch_invocation (path : string) : Invocation :=
  mkInvocation "git" ["-C"; path; "rev-parse"; "--abbrev-ref"; "HEAD"].
Definition commits_invocation (path : string) (n : Q) : Invocation :=
  mkInvocation "git" ["-C"; path; "log"; "-n"; String_of_number n; "--pretty=format:%h %s"].
Definition diffstat_invocation (path : string) : Invocation :=
  mkInvocation "git" ["-C"; path; "show"; "--stat"; "--oneline"; "-1"].

(** ** The discovery handlers (index.ts, lines 32-50 and 97-119) *)

Module PromptArgument.
Record t := mk { name : string; description : string; required : bool }.
End PromptArgument.

Module Prompt.
Record t := mk { name : string; description : string; arguments : list PromptArgument.t }.
End Prompt.

Definition ListPromptsHandler : proc (list Prompt.t) :=
  Return [
    Prompt.mk "house_rules"
      "Reusable instructions for how I want the assistant to behave (safe, scoped, and consistent)."
      [ PromptArgument.mk "mode"
          "Optional: what kind of work we are doing (review, triage, release-notes)."
          false ]
  ].

(** One entry of [properties]: [{ type, description, default? }]. *)
Module ToolProperty.
Record t := mk { type : string; description : string; default : option json }.
End ToolProperty.

(** [{ type: "object", properties, required }], the properties in the order
    they are written. *)
Module InputSchema.
Record t := mk {
  type : string;
  properties : list (string * ToolProperty.t);
  required : list string
}.
End InputSchema.

Module Tool.
Record t := mk { name : string; description : string; inputSchema : InputSchema.t }.
End Tool.

Definition ListToolsHandler : proc (list Tool.t) :=
  Return [
    Tool.mk "git_context"
      "Fetches a compact git context bundle so the assistant stops asking for basic repo details."
      (InputSchema.mk "object"
         [ ("repoPath", ToolProperty.mk "string" "Absolute repo path" None);
           ("maxCommits", ToolProperty.mk "number" "Max commits (1..50)" (Some (JNum 15))) ]
         ["repoPath"])
  ].

(** What a body that starts no child process returns. *)
Definition returned {A : Type} (p : proc A) : option A :=
  match p with
  | Return a => Some a
  | _ => None
  end.

(** What a client learns from list-prompts and list-tools. *)
Definition advertised_prompts : list Prompt.t := default [] (returned ListPromptsHandler).
Definition advertised_tools : list Tool.t := default [] (returned ListToolsHandler).

(** ** Logging and start-up (index.ts, lines 15-19 and 196-206) *)

Module process.
(** The process as the outside sees it: what it has written to its two
    streams, and its exit status once it has exited. *)
Record t := mk { stdout : string; stderr : string; exitCode : option Z }.

Definition stderr_write (text : string) (p : t) : t :=
  mk (stdout p) (stderr p +:+ text) (exitCode p).

(** [process.exit(code)] *)
Definition exit (code : Z) (p : t) : t := mk (stdout p) (stderr p) (Some code).
End process.

(** [log(...args)], each argument given by its [String(..)] image. *)
Definition log (args : list string) (p : process.t) : process.t :=
  process.stderr_write (join " " args +:+ nl) p.

(** [main().catch(...)]: [connect] is how [server.connect(transport)]
    settled, [None] when it resolved and [Some err] when it was rejected with
    a value whose [String(..)] image is [err]. *)
Definition main (connect : option string) (p : process.t) : process.t :=
  match connect with
  | None => log ["mcp-house-rules running on stdio"] p
  | Some err => process.exit 1 (log ["Fatal error:"; err] p)
  end.

(** Whether the code unit [c] occurs in [s]. *)
Fixpoint contains (c : ascii) (s : string) : bool :=
  match s with
  | EmptyString => false
  | String c' s' => Ascii.eqb c' c || contains c s'
  end.

Definition NUL : ascii := ascii_of_nat 0.

(** Whether Node refuses a call of [execFile]: it does when the program or
    one of the arguments holds a NUL code unit. *)
Definition has_nul (i : Invocation) : bool :=
  existsb (contains NUL) (file i :: args i).

(** ** A sample world

    A machine with one repository at [/srv/repo]: every child process that is
    asked about another path is rejected the way git exits there, and a call
    with a NUL in an argument is refused by Node. The world's state counts
    the children started so far, and serves as its clock. *)
Module Sample.

#[global] Instance clock : Surroundings nat := fun w => (w, S w).

Definition fatal : settled :=
  Rejected (ExitFailure 128 (mkOutput "" "fatal: not a git repository")).

Definition execFile (w : nat) (i : Invocation) : settled * nat :=
  if has_nul i then (Thrown "ERR_INVALID_ARG_VALUE", w) else
  (match args i with
   | ["-C"; "/srv/repo"; "rev-parse"; "--is-inside-work-tree"] =>
       Resolved (mkOutput ("true" +:+ nl) "")
   | ["-C"; "/srv/repo"; "rev-parse"; "--abbrev-ref"; "HEAD"] =>
       Resolved (mkOutput ("main" +:+ nl) "")
   | ["-C"; "/srv/repo"; "log"; "-n"; _; _] =>
       Resolved (mkOutput ("a1b2c3d Add tool" +:+ nl +:+ "0f9e8d7 Initial commit") "")
   | ["-C"; "/srv/repo"; "show"; "--stat"; "--oneline"; "-1"] =>
       Resolved (mkOutput ("a1b2c3d Add tool" +:+ nl +:+ " src/index.ts | 4 ++--" +:+ nl) "")
   | _ => fatal
   end, S w).


(** The same machine when it can start no more than [limit] children. *)
Definition execFile_limited (limit : nat) (w : nat) (i : Invocation) : settled * nat :=
  if (w <? limit)%nat then execFile w i else (Rejected (SpawnFailure "EAGAIN"), S w).

Definition call (bag : gmap string json) : RequestParams :=
  mkParams "git_context" (Some (JObj bag)).

End Sample.

(** ** Vocabulary of the properties *)

(** What [maxCommits] must be to pass: an integer between 1 and 50. *)
Definition valid_count (n : Q) : bool :=
  Zod.isInteger n && Qle_bool 1 n && Qle_bool n 50.

(** The two field schemas of [GitContextSchema], by name. *)
Definition path_schema : Zod.ZodType string := Zod.min_length 1 Zod.string.

Definition count_schema : Zod.ZodType Q :=
  Zod.default (JNum 15) (Zod.max 50 (Zod.min 1 (Zod.int Zod.number))).

(** What follows [-C <path>] in the four invocations; only the count of the
    commit listing varies. *)
Definition git_subcommands (n : Q) : list (list string) :=
  [ ["rev-parse"; "--is-inside-work-tree"];
    ["rev-parse"; "--abbrev-ref"; "HEAD"];
    ["log"; "-n"; String_of_number n; "--pretty=format:%h %s"];
    ["show"; "--stat"; "--oneline"; "-1"] ].

(** The report as it is described: one "- " entry per line, ... *)
Fixpoint bullet_list (lines : list string) : string :=
  match lines with
  | [] => ""
  | [l] => "- " +:+ l
  | l :: ls => "- " +:+ l +:+ nl +:+ bullet_list ls
  end.

(** ... or the marker "- None" when there is no commit line at all, ... *)
Definition commit_section (commits : string) : string :=
  match commits with
  | EmptyString => "- None"
  | _ => bullet_list (split LF commits)
  end.

(** ... between the header with the branch line and the fenced diffstat. *)
Definition report (branch commits diffstat : string) : string :=
  "# Repo Context" +:+ nl +:+
  "- Branch: " +:+ branch +:+ nl +:+
  nl +:+
  "## Recent commits" +:+ nl +:+
  commit_section commits +:+ nl +:+
  nl +:+
  "## Latest commit diffstat" +:+ nl +:+
  "```" +:+ nl +:+
  diffstat +:+ nl +:+
  "```".

(** The lines of a text. *)
Definition lines (text : string) : list string := split LF text.

(** What a get-prompt call returns when it returns the text [text]. *)
Definition prompt_of (text : string) : proc GetPromptResult :=
  Return (mkPrompt "My reusable assistant rules" [mkMessage "user" [TextContent text]]).

(** An argument bag without the keys the schema does not name. *)
Definition strip_extra (m : gmap string json) : gmap string json :=
  filter (fun kv => kv.1 = "repoPath" \/ kv.1 = "maxCommits") m.

(** JSON Schema's reading of a [type] keyword. *)
Definition has_type (t : string) (v : json) : bool :=
  match v with
  | JNull => String.eqb t "null"
  | JBool _ => String.eqb t "boolean"
  | JNum _ => String.eqb t "number"
  | JStr _ => String.eqb t "string"
  | JArr _ => String.eqb t "array"
  | JObj _ => String.eqb t "object"
  end.

(** Whether an argument bag is what an advertised [inputSchema] describes:
    a value of the schema's type, holding every required key, each described
    key that is present having the described type. *)
Definition conforms (schema : InputSchema.t) (input : option json) : bool :=
  match input with
  | Some (JObj m) =>
      has_type (InputSchema.type schema) (JObj m)
      && forallb (fun k => bool_decide (is_Some (m !! k))) (InputSchema.required schema)
      && forallb (fun kp : string * ToolProperty.t =>
                    match m !! kp.1 with
                    | Some v => has_type (ToolProperty.type kp.2) v
                    | None => true
                    end)
                 (InputSchema.properties schema)
  | _ => false
  end.

(** The four invocations of a complete run, in the order they are made. *)
Definition four_invocations (a : GitContextArgs) : list Invocation :=
  [ probe_invocation (repoPath a);
    branch_invocation (repoPath a);
    commits_invocation (repoPath a) (maxCommits a);
    diffstat_invocation (repoPath a) ].

(** How often the code unit [c] occurs in [s]. *)
Fixpoint occurrences (c : ascii) (s : string) : nat :=
  match s with
  | EmptyString => 0
  | String c' s' => (if Ascii.eqb c' c then 1 else 0) + occurrences c s'
  end.

(** Whether [s] is made of white space alone. *)
Fixpoint blank (s : string) : bool :=
  match s with
  | EmptyString => true
  | String c s' => isWhiteSpace c && blank s'
  end.




(** Whether a call of [execFile] started a child process: it did unless
    Node refused the call. *)
Definition started (r : settled) : bool :=
  match r with
  | Thrown _ => false
  | _ => true
  end.

(** A body that takes no look at its surroundings, however its calls of
    [execFile] end. *)
Inductive self_contained {A : Type} : proc A -> Prop :=
| sc_Return (a : A) : self_contained (Return a)
| sc_Throw (e : exception) : self_contained (Throw e)
| sc_Spawn (i : Invocation) (k : settled -> proc A) :
    (forall r, self_contained (k r)) -> self_contained (Spawn i k).

(** Two ways a child settled that a caller reading only the standard output
    of a resolved child cannot tell apart. *)
Definition same_stdout (r r' : settled) : Prop :=
  match r, r' with
  | Resolved out, Resolved out' => stdout out = stdout out'
  | Rejected _, Rejected _ => True
  | _, _ => False
  end.

(** Enter the body of the tool handler for a request that names the tool and
    validates. *)
Ltac enter_handler Hn Hp :=
  unfold CallToolHandler, parse; rewrite Hn, Hp; simpl.

(** Follow the body of the tool handler through every way its calls of
    [execFile] can end and both answers of the probe. *)
Ltac walk_handler execFile :=
  repeat match goal with
         | |- context [execFile ?v ?i] =>
             destruct (execFile v i) as [[? | ? | ?] ?]; simpl
         | |- context [String.eqb (trim (stdout ?o)) "true"] =>
             destruct (String.eqb (trim (stdout o)) "true") eqn:?; simpl
         end.

(** Take a [Forall2] over explicit lists apart. *)
Ltac invert_Forall2 :=
  repeat match goal with
         | H : Forall2 _ (_ :: _) _ |- _ => inversion H; subst; clear H
         | H : Forall2 _ [] _ |- _ => inversion H; subst; clear H
         end.

(** * Properties *)

(** ** The schema *)

Lemma app_nil_inv {A : Type} (l : list A) (x : A) : l ++ [x] <> [].
Proof. destruct l; discriminate. Qed.

Lemma count_schema_number p n :
  exists iss, count_schema p (Some (JNum n)) = Zod.Parsed n iss
              /\ (iss = [] <-> valid_count n = true).
Proof.
  unfold count_schema, valid_count, Zod.default, Zod.max, Zod.min, Zod.int,
    Zod.check, Zod.number.
  destruct (Zod.isInteger n), (Qle_bool 1 n), (Qle_bool n 50); simpl;
    eexists; (split; [reflexivity |]); split; intros H;
    solve [ reflexivity | discriminate H | exfalso; eapply app_nil_inv; exact H ].
Qed.

Lemma count_schema_absent p : count_schema p None = Zod.Parsed 15%Q [].
Proof. reflexivity. Qed.

Lemma count_schema_other p v :
  (forall n, v <> JNum n) -> count_schema p (Some v) = Zod.Aborted [Zod.mkIssue Zod.invalid_type p].
Proof. intros H. destruct v; try reflexivity. now destruct (H n). Qed.

Lemma path_schema_string p s :
  path_schema p (Some (JStr s)) =
    Zod.Parsed s (if isEmpty s then [Zod.mkIssue Zod.too_small p] else []).
Proof. now destruct s. Qed.

Lemma path_schema_other p v :
  (forall s, v <> Some (JStr s)) -> path_schema p v = Zod.Aborted [Zod.mkIssue Zod.invalid_type p].
Proof.
  intros H. destruct v as [[]|]; try reflexivity. now destruct (H s).
Qed.

Lemma isEmpty_true s : isEmpty s = true <-> s = "".
Proof. destruct s; simpl; split; congruence. Qed.

(** [GitContextSchema.parse] on an object, read off the two keys. *)
Lemma GitContextSchema_parse_object (m : gmap string json) :
  Zod.parse GitContextSchema (Some (JObj m)) =
    match path_schema ["repoPath"] (m !! "repoPath"),
          count_schema ["maxCommits"] (m !! "maxCommits") with
    | Zod.Parsed p [], Zod.Parsed n [] => inl (mkArgs p n)
    | r1, r2 => inr (Zod.issues_of r1 ++ Zod.issues_of r2)
    end.
Proof.
  unfold Zod.parse, GitContextSchema, Zod.object2. simpl.
  fold path_schema. fold count_schema.
  destruct (path_schema _ _) as [i1 | a [| x i1]],
           (count_schema _ _) as [i2 | b [| y i2]]; reflexivity.
Qed.

(** Nothing but an object passes. *)
Lemma GitContextSchema_parse_not_object (input : option json) :
  (forall m, input <> Some (JObj m)) ->
  Zod.parse GitContextSchema input = inr [Zod.mkIssue Zod.invalid_type []].
Proof.
  intros H. destruct input as [[]|]; try reflexivity. now destruct (H m).
Qed.

(** A complete description of the inputs that validate, and to what. *)
Lemma GitContextSchema_parse_inl (input : option json) (a : GitContextArgs) :
  Zod.parse GitContextSchema input = inl a <->
  exists m, input = Some (JObj m)
    /\ m !! "repoPath" = Some (JStr (repoPath a))
    /\ repoPath a <> ""
    /\ ((m !! "maxCommits" = None /\ maxCommits a = 15%Q)
        \/ (m !! "maxCommits" = Some (JNum (maxCommits a))
            /\ valid_count (maxCommits a) = true)).
Proof.
  split.
  - intros H.
    destruct input as [[| | | | | m]|];
      try (rewrite GitContextSchema_parse_not_object in H by (intros ? ?; discriminate);
           discriminate).
    exists m. split; [reflexivity |].
    rewrite GitContextSchema_parse_object in H.
    destruct (m !! "repoPath") as [[| | | s | |]|] eqn:Hp;
      try (rewrite path_schema_other in H by (intros ? ?; discriminate); discriminate).
    rewrite path_schema_string in H.
    destruct s as [| c s]; [discriminate |]. simpl in H.
    destruct (m !! "maxCommits") as [v|] eqn:Hc.
    + destruct v as [| | n | | |];
        try (rewrite count_schema_other in H by (intros ? ?; discriminate); discriminate).
      destruct (count_schema_number ["maxCommits"] n) as (iss & E & Hv).
      rewrite E in H. destruct iss; [| discriminate].
      injection H as <-. simpl. repeat split; try discriminate.
      right. split; [reflexivity | now apply Hv].
    + rewrite count_schema_absent in H. injection H as <-. simpl.
      repeat split; try discriminate. now left.
  - intros (m & -> & Hp & Hne & Hc).
    rewrite GitContextSchema_parse_object, Hp, path_schema_string.
    destruct a as [p n]; simpl in *.
    destruct p; [congruence |]. simpl.
    destruct Hc as [[-> ->] | [-> Hv]].
    + now rewrite count_schema_absent.
    + destruct (count_schema_number ["maxCommits"] n) as (iss & E & Hiss).
      rewrite E. apply Hiss in Hv. now subst iss.
Qed.

(** Validated arguments are never out of their declared range. *)
Lemma GitContextSchema_range (input : option json) (a : GitContextArgs) :
  Zod.parse GitContextSchema input = inl a ->
  repoPath a <> "" /\ valid_count (maxCommits a) = true.
Proof.
  intros H. apply GitContextSchema_parse_inl in H as (m & _ & _ & Hne & Hc).
  split; [exact Hne |]. destruct Hc as [[_ ->] | [_ Hv]]; [reflexivity | exact Hv].
Qed.

(** ** The tool handler *)

Lemma CallToolHandler_invalid (params : RequestParams) (iss : list Zod.ZodIssue) :
  name params = "git_context" ->
  Zod.parse GitContextSchema (arguments params) = inr iss ->
  CallToolHandler params = Throw (ZodError iss).
Proof.
  intros Hn Hp. unfold CallToolHandler, parse. rewrite Hn, Hp. reflexivity.
Qed.

(** When the probe is rejected (the child could not be started, or git
    exited with an error) or resolves with anything but [true], the call
    returns the content "Not a git repository: <path>", not an error, and the
    probe is the only call that was made. *)
Lemma probe_rejection_is_soft {World : Type} `{Surroundings World}
    (execFile : World -> Invocation -> settled * World) (w w1 : World)
    (params : RequestParams) (a : GitContextArgs) (r : settled) :
  name params = "git_context" ->
  Zod.parse GitContextSchema (arguments params) = inl a ->
  execFile w (probe_invocation (repoPath a)) = (r, w1) ->
  (forall code, r <> Thrown code) ->
  (forall out, r = Resolved out -> trim (stdout out) <> "true") ->
  run execFile (CallToolHandler params) w =
    (Returned (mkToolResult [TextContent ("Not a git repository: " +:+ repoPath a)]),
     [(probe_invocation (repoPath a), r)],
     w1).
Proof.
  intros Hn Hp He Hc Hr. enter_handler Hn Hp.
  unfold probe_invocation in He. rewrite He.
  destruct r as [out | e | code]; simpl; [| reflexivity | now destruct (Hc code)].
  specialize (Hr out eq_refl). apply String.eqb_neq in Hr. rewrite Hr.
  reflexivity.
Qed.

Example probe_rejection_is_soft_sample :
  run Sample.execFile
      (CallToolHandler (Sample.call {[ "repoPath" := JStr "/tmp" ]})) 0%nat =
    (Returned (mkToolResult [TextContent "Not a git repository: /tmp"]),
     [(probe_invocation "/tmp", Sample.fatal)], 1%nat).
Proof. vm_compute. reflexivity. Qed.

(** C1. Not every failure of the probe is soft. When the probe call itself
    throws (Node refuses the arguments, as it does for a path that holds a
    NUL code unit), the [.catch] chained on the promise never sees the
    error: the handler throws the [TypeError] instead of returning the "Not
    a git repository" content, and no child process was started. *)
Theorem probe_refusal_escapes {World : Type} `{Surroundings World}
    (execFile : World -> Invocation -> settled * World) (w w1 : World)
    (params : RequestParams) (a : GitContextArgs) (code : string) :
  name params = "git_context" ->
  Zod.parse GitContextSchema (arguments params) = inl a ->
  execFile w (probe_invocation (repoPath a)) = (Thrown code, w1) ->
  run execFile (CallToolHandler params) w =
    (Threw (TypeError code), [(probe_invocation (repoPath a), Thrown code)], w1).
Proof.
  intros Hn Hp He. enter_handler Hn Hp.
  unfold probe_invocation in He. rewrite He. reflexivity.
Qed.

Lemma probe_refusal_escapes_witness :
  run Sample.execFile
      (CallToolHandler
         (Sample.call {[ "repoPath" := JStr ("/tmp/v/repo" +:+ String NUL "") ]}))
      0%nat =
    (Threw (TypeError "ERR_INVALID_ARG_VALUE"),
     [(probe_invocation ("/tmp/v/repo" +:+ String NUL ""),
       Thrown "ERR_INVALID_ARG_VALUE")],
     0%nat).
Proof.
  apply (probe_refusal_escapes Sample.execFile 0%nat 0%nat
           (Sample.call {[ "repoPath" := JStr ("/tmp/v/repo" +:+ String NUL "") ]})
           (mkArgs ("/tmp/v/repo" +:+ String NUL "") 15)).
  - reflexivity.
  - vm_compute. reflexivity.
  - reflexivity.
Defined.

Lemma valid_count_spec (n : Q) :
  valid_count n = true <-> Zod.isInteger n = true /\ (1 <= n)%Q /\ (n <= 50)%Q.
Proof.
  unfold valid_count. rewrite !andb_true_iff, !Qle_bool_iff. tauto.
Qed.

Lemma parse_bad_count (m : gmap string json) (v : json) :
  m !! "maxCommits" = Some v ->
  (forall n, v = JNum n -> valid_count n = false) ->
  exists iss, Zod.parse GitContextSchema (Some (JObj m)) = inr iss.
Proof.
  intros Hm Hv.
  destruct (Zod.parse GitContextSchema (Some (JObj m))) as [a | iss] eqn:E;
    [| now exists iss].
  apply GitContextSchema_parse_inl in E as (m' & [= <-] & _ & _ & Hc).
  destruct Hc as [[Hc _] | [Hc Hok]]; [congruence |].
  rewrite Hm in Hc. injection Hc as ->.
  rewrite (Hv _ eq_refl) in Hok. discriminate.
Qed.

Lemma run_Throw {World : Type} `{Surroundings World} (execFile : World -> Invocation -> settled * World)
    {A : Type} (e : exception) (w : World) :
  run execFile (@Throw A e) w = (Threw e, [], w).
Proof. reflexivity. Qed.

(** C2. [maxCommits] is checked before any child process is started: a value
    that is not an integer between 1 and 50 (0 and 51 among them) makes the
    call throw a [ZodError] with no child process started; and when the key
    is absent the count is 15, which is what the commit listing is given
    after [-n]. *)
Theorem maxCommits_validated_first (params : RequestParams) (m : gmap string json) :
  name params = "git_context" ->
  arguments params = Some (JObj m) ->
  (forall v, m !! "maxCommits" = Some v ->
     (forall n, v = JNum n ->
        Zod.isInteger n = false \/ (n < 1)%Q \/ (50 < n)%Q) ->
     exists iss,
       CallToolHandler params = Throw (ZodError iss)
       /\ forall (World : Type) (clock : Surroundings World)
                 (execFile : World -> Invocation -> settled * World) (w : World),
            run execFile (CallToolHandler params) w = (Threw (ZodError iss), [], w))
  /\ (forall p, m !! "maxCommits" = None ->
        m !! "repoPath" = Some (JStr p) -> p <> "" ->
        Zod.parse GitContextSchema (arguments params) = inl (mkArgs p 15)
        /\ forall (World : Type) (clock : Surroundings World)
                  (execFile : World -> Invocation -> settled * World)
                  (w w1 w2 : World) (o0 o1 : ExecOutput),
             execFile w (probe_invocation p) = (Resolved o0, w1) ->
             trim (stdout o0) = "true" ->
             execFile w1 (branch_invocation p) = (Resolved o1, w2) ->
             exists r rest,
               trace execFile (CallToolHandler params) w =
                 (probe_invocation p, Resolved o0)
                 :: (branch_invocation p, Resolved o1)
                 :: (mkInvocation "git" ["-C"; p; "log"; "-n"; "15"; "--pretty=format:%h %s"], r)
                 :: rest).
Proof.
  intros Hn Ha. split.
  - intros v Hm Hv.
    destruct (parse_bad_count m v Hm) as [iss E].
    { intros n ->. destruct (valid_count n) eqn:Hok; [| reflexivity].
      apply valid_count_spec in Hok as (Hi & Hlo & Hhi).
      destruct (Hv n eq_refl) as [H | [H | H]].
      - congruence.
      - destruct (Qlt_not_le _ _ H Hlo).
      - destruct (Qlt_not_le _ _ H Hhi). }
    exists iss. rewrite <- Ha in E.
    rewrite (CallToolHandler_invalid params iss Hn E). split; [reflexivity |].
    intros. apply run_Throw.
  - intros p Hc Hp Hne.
    assert (E : Zod.parse GitContextSchema (arguments params) = inl (mkArgs p 15)).
    { apply GitContextSchema_parse_inl. exists m. simpl. repeat split; auto. }
    split; [exact E |].
    intros World clock execFile w w1 w2 o0 o1 H0 Ht H1.
    unfold trace. enter_handler Hn E.
    unfold probe_invocation in H0. rewrite H0. simpl. rewrite Ht. simpl.
    unfold branch_invocation in H1. rewrite H1. simpl.
    destruct (execFile w2 _) as [r w3] eqn:H2.
    destruct (run execFile _ w3) as [[o t] w4].
    exists r, t. reflexivity.
Qed.

Lemma maxCommits_validated_first_witness :
  (exists iss,
     CallToolHandler
       (Sample.call {[ "repoPath" := JStr "/srv/repo"; "maxCommits" := JNum 0 ]}) =
     Throw (ZodError iss))
  /\ (exists iss,
        CallToolHandler
          (Sample.call {[ "repoPath" := JStr "/srv/repo"; "maxCommits" := JNum 51 ]}) =
        Throw (ZodError iss))
  /\ (exists r rest,
        trace Sample.execFile
          (CallToolHandler (Sample.call {[ "repoPath" := JStr "/srv/repo" ]})) 0%nat =
          (probe_invocation "/srv/repo", Resolved (mkOutput ("true" +:+ nl) ""))
          :: (branch_invocation "/srv/repo", Resolved (mkOutput ("main" +:+ nl) ""))
          :: (mkInvocation "git"
                ["-C"; "/srv/repo"; "log"; "-n"; "15"; "--pretty=format:%h %s"], r)
          :: rest).
Proof.
  split; [| split].
  - destruct (maxCommits_validated_first
                (Sample.call {[ "repoPath" := JStr "/srv/repo"; "maxCommits" := JNum 0 ]})
                _ eq_refl eq_refl) as [H _].
    destruct (H (JNum 0)) as (iss & E & _).
    + reflexivity.
    + intros n [= <-]. right. left. reflexivity.
    + exists iss. exact E.
  - destruct (maxCommits_validated_first
                (Sample.call {[ "repoPath" := JStr "/srv/repo"; "maxCommits" := JNum 51 ]})
                _ eq_refl eq_refl) as [H _].
    destruct (H (JNum 51)) as (iss & E & _).
    + reflexivity.
    + intros n [= <-]. right. right. reflexivity.
    + exists iss. exact E.
  - destruct (maxCommits_validated_first
                (Sample.call {[ "repoPath" := JStr "/srv/repo" ]})
                _ eq_refl eq_refl) as [_ H].
    destruct (H "/srv/repo") as [_ H'].
    + reflexivity.
    + reflexivity.
    + discriminate.
    + apply (H' nat Sample.clock Sample.execFile 0%nat 1%nat 2%nat); reflexivity.
Defined.

(** C10. An empty [repoPath] is a string, yet the call throws a [ZodError]
    (the path is too short) with no child process started. *)
Theorem empty_repoPath_rejected (params : RequestParams) (m : gmap string json) :
  name params = "git_context" ->
  arguments params = Some (JObj m) ->
  m !! "repoPath" = Some (JStr "") ->
  exists iss,
    In (Zod.mkIssue Zod.too_small ["repoPath"]) iss
    /\ CallToolHandler params = Throw (ZodError iss)
    /\ forall (World : Type) (clock : Surroundings World)
              (execFile : World -> Invocation -> settled * World) (w : World),
         run execFile (CallToolHandler params) w = (Threw (ZodError iss), [], w).
Proof.
  intros Hn Ha Hp.
  assert (E : exists iss, In (Zod.mkIssue Zod.too_small ["repoPath"]) iss
                          /\ Zod.parse GitContextSchema (arguments params) = inr iss).
  { rewrite Ha, GitContextSchema_parse_object, Hp, path_schema_string. simpl.
    destruct (count_schema _ _) as [i2 | n i2]; eexists; (split; [| reflexivity]);
      simpl; auto. }
  destruct E as (iss & Hin & E). exists iss. split; [exact Hin |].
  rewrite (CallToolHandler_invalid params iss Hn E). split; [reflexivity |].
  intros. apply run_Throw.
Qed.

Lemma empty_repoPath_rejected_witness :
  exists iss,
    CallToolHandler (Sample.call {[ "repoPath" := JStr "" ]}) = Throw (ZodError iss).
Proof.
  destruct (empty_repoPath_rejected (Sample.call {[ "repoPath" := JStr "" ]}) _
              eq_refl eq_refl) as (iss & _ & E & _).
  - reflexivity.
  - exists iss. exact E.
Defined.

(** C3. Once the probe has answered [true], a rejection of the branch, the
    commit listing or the diffstat invocation is not caught: the handler
    throws that very rejection, returns no content, and starts no further
    child process. *)
Theorem followup_failure_propagates {World : Type} `{Surroundings World}
    (execFile : World -> Invocation -> settled * World) (w w1 : World)
    (params : RequestParams) (a : GitContextArgs) (o0 : ExecOutput) :
  name params = "git_context" ->
  Zod.parse GitContextSchema (arguments params) = inl a ->
  execFile w (probe_invocation (repoPath a)) = (Resolved o0, w1) ->
  trim (stdout o0) = "true" ->
  forall i e,
    In (i, Rejected e) (trace execFile (CallToolHandler params) w) ->
    result execFile (CallToolHandler params) w = Threw (ExecError e)
    /\ In i [branch_invocation (repoPath a);
             commits_invocation (repoPath a) (maxCommits a);
             diffstat_invocation (repoPath a)]
    /\ last (trace execFile (CallToolHandler params) w) = Some (i, Rejected e).
Proof.
  intros Hn Hp H0 Ht i e. unfold trace, result. enter_handler Hn Hp.
  unfold probe_invocation in H0. rewrite H0. simpl. rewrite Ht. simpl.
  walk_handler execFile; intros Hin;
    repeat match goal with
           | H : _ \/ _ |- _ => destruct H as [H | H]
           | H : False |- _ => destruct H
           | H : (_, _) = (_, _) |- _ => first [discriminate H | injection H as <- <-]
           end;
    auto 6.
Qed.

Lemma followup_failure_propagates_witness :
  result (Sample.execFile_limited 2)
         (CallToolHandler (Sample.call {[ "repoPath" := JStr "/srv/repo" ]})) 0%nat =
    Threw (ExecError (SpawnFailure "EAGAIN")).
Proof.
  apply (followup_failure_propagates (Sample.execFile_limited 2) 0%nat 1%nat
           (Sample.call {[ "repoPath" := JStr "/srv/repo" ]}) (mkArgs "/srv/repo" 15)
           (mkOutput ("true" +:+ nl) "") eq_refl)
    with (i := commits_invocation "/srv/repo" 15).
  - vm_compute. reflexivity.
  - reflexivity.
  - reflexivity.
  - vm_compute. auto.
Defined.

(** C5. Every child process the handler starts, whatever the request and
    however the earlier ones settled, is [git] started with a list of
    arguments: [-C], then the [repoPath] string as one element of its own,
    then one of four fixed tails in which the path does not occur. *)
Theorem invocations_are_argument_lists {World : Type} `{Surroundings World}
    (execFile : World -> Invocation -> settled * World) (w : World)
    (params : RequestParams) :
  Forall (fun ir : Invocation * settled =>
            exists a,
              Zod.parse GitContextSchema (arguments params) = inl a
              /\ file ir.1 = "git"
              /\ exists rest,
                   args ir.1 = "-C" :: repoPath a :: rest
                   /\ In rest (git_subcommands (maxCommits a)))
         (trace execFile (CallToolHandler params) w).
Proof.
  unfold trace, CallToolHandler, parse.
  destruct (String.eqb (name params) "git_context"); simpl; [| constructor].
  destruct (Zod.parse GitContextSchema (arguments params)) as [a | iss]; simpl;
    [| constructor].
  assert (Hshape : forall rest, In rest (git_subcommands (maxCommits a)) ->
            exists a', @inl _ (list Zod.ZodIssue) a = inl a' /\ "git" = "git"
              /\ exists rest', "-C" :: repoPath a :: rest = "-C" :: repoPath a' :: rest'
                   /\ In rest' (git_subcommands (maxCommits a'))).
  { intros rest Hin. exists a. repeat split. now exists rest. }
  walk_handler execFile; repeat constructor; apply Hshape; simpl; auto.
Qed.

(** ** White space *)


Lemma trimEnd_blank (s : string) : blank s = true -> trimEnd s = "".
Proof.
  induction s as [| c s IH]; simpl; [reflexivity |].
  intros H. apply andb_true_iff in H as [Hc Hs]. now rewrite Hc, (IH Hs).
Qed.

Lemma trimStart_blank_app (l s : string) :
  blank l = true -> trimStart (l +:+ s) = trimStart s.
Proof.
  induction l as [| c l IH]; simpl; [reflexivity |].
  intros H. apply andb_true_iff in H as [Hc Hl]. rewrite Hc. auto.
Qed.

Lemma trimEnd_app_blank (s r : string) :
  blank r = true -> trimEnd (s +:+ r) = trimEnd s.
Proof.
  intros Hr. induction s as [| c s IH]; simpl.
  - now apply trimEnd_blank.
  - now rewrite IH.
Qed.

Lemma trimStart_split (s : string) :
  exists l, blank l = true /\ s = l +:+ trimStart s.
Proof.
  induction s as [| c s (l & Hl & E)]; simpl.
  - now exists "".
  - destruct (isWhiteSpace c) eqn:Hc.
    + exists (String c l). split; [simpl; now rewrite Hc, Hl |].
      change (String c s = String c (l +:+ trimStart s)). now rewrite <- E.
    + now exists "".
Qed.

Lemma trimEnd_split (s : string) :
  exists r, blank r = true /\ s = trimEnd s +:+ r.
Proof.
  induction s as [| c s (r & Hr & E)]; simpl.
  - now exists "".
  - destruct (isWhiteSpace c && isEmpty (trimEnd s)) eqn:Hc.
    + apply andb_true_iff in Hc as [Hc He]. apply isEmpty_true in He.
      rewrite He in E. change ("" +:+ r) with r in E. subst s.
      exists (String c r). simpl. now rewrite Hc, Hr.
    + exists r. split; [exact Hr |].
      change (String c s = String c (trimEnd s +:+ r)). now rewrite <- E.
Qed.







(** ** The report *)

Lemma join_bullets (ls : list string) :
  join nl (map (fun l => "- " +:+ l) ls) = bullet_list ls.
Proof.
  induction ls as [| l [| l' ls] IH]; [reflexivity | reflexivity |].
  change (("- " +:+ l) +:+ nl +:+ join nl (map (fun l => "- " +:+ l) (l' :: ls))
          = "- " +:+ l +:+ nl +:+ bullet_list (l' :: ls)).
  rewrite IH. reflexivity.
Qed.

Lemma payload_report (branch commits diffstat : string) :
  payload branch commits diffstat = report branch commits diffstat.
Proof.
  unfold payload, report, commit_section.
  destruct commits as [| c cs]; [reflexivity |].
  cbn [isEmpty]. rewrite join_bullets. reflexivity.
Qed.



(** The empty commit listing gives the marker. *)
Example report_no_commits :
  report "main" "" "" =
    "# Repo Context" +:+ nl +:+ "- Branch: main" +:+ nl +:+ nl +:+
    "## Recent commits" +:+ nl +:+ "- None" +:+ nl +:+ nl +:+
    "## Latest commit diffstat" +:+ nl +:+ "```" +:+ nl +:+ nl +:+ "```".
Proof. reflexivity. Qed.

(** ** Determinism *)

(** A body that takes no look at its surroundings is a function of how its
    calls of [execFile] end: two runs of it, in any two worlds, that see the
    same answers end the same way. *)
Lemma run_same_answers {World : Type} `{Surroundings World}
    (execFile : World -> Invocation -> settled * World)
    {A : Type} (p : proc A) (w w' : World) :
  self_contained p ->
  (trace execFile p w).*2 = (trace execFile p w').*2 ->
  result execFile p w = result execFile p w'
  /\ trace execFile p w = trace execFile p w'.
Proof.
  unfold trace, result. intros Hp. revert w w'.
  induction Hp as [a | e | i k Hk IH]; intros w w'; simpl; [auto | auto |].
  destruct (execFile w i) as [r w1], (execFile w' i) as [r' w1'].
  specialize (IH r w1 w1').
  destruct (run execFile (k r) w1) as [[o t] w2] eqn:E1.
  destruct (run execFile (k r') w1') as [[o' t'] w2'] eqn:E2.
  simpl. intros [= <- Ht]. rewrite E2 in IH. simpl in IH.
  destruct (IH Ht) as [-> ->]. auto.
Qed.

(** The tool handler consults nothing but the request and its own calls of
    [execFile]: no clock, no random draw, no counter. *)
Lemma CallToolHandler_self_contained (params : RequestParams) :
  self_contained (CallToolHandler params).
Proof.
  unfold CallToolHandler, parse.
  destruct (String.eqb (name params) "git_context"); simpl; [| constructor].
  destruct (Zod.parse GitContextSchema (arguments params)) as [a | iss]; simpl;
    [| constructor].
  repeat first
    [ apply sc_Return
    | apply sc_Throw
    | apply sc_Spawn; intros [? | ? | ?]; simpl
    | match goal with
      | |- context [String.eqb ?x "true"] => destruct (String.eqb x "true"); simpl
      end ].
Qed.

(** C8. Two consecutive calls with the same request, the second starting in
    the world the first one left, with its clock and counters moved on,
    return the same outcome (byte for byte the same content) whenever the
    child processes of the second call settle as those of the first did:
    nothing else enters the handler's answer. *)
Theorem consecutive_calls_identical {World : Type} `{Surroundings World}
    (execFile : World -> Invocation -> settled * World) (w : World)
    (params : RequestParams) :
  let w' := after execFile (CallToolHandler params) w in
  (trace execFile (CallToolHandler params) w).*2
    = (trace execFile (CallToolHandler params) w').*2 ->
  result execFile (CallToolHandler params) w
    = result execFile (CallToolHandler params) w'.
Proof.
  intros w' Hsame.
  apply (run_same_answers execFile _ w w' (CallToolHandler_self_contained params) Hsame).
Qed.

Lemma consecutive_calls_identical_witness :
  result Sample.execFile
         (CallToolHandler (Sample.call {[ "repoPath" := JStr "/srv/repo" ]})) 0%nat =
  result Sample.execFile
         (CallToolHandler (Sample.call {[ "repoPath" := JStr "/srv/repo" ]})) 4%nat.
Proof.
  change 4%nat with
    (after Sample.execFile
       (CallToolHandler (Sample.call {[ "repoPath" := JStr "/srv/repo" ]})) 0%nat) at 1.
  apply (consecutive_calls_identical Sample.execFile 0%nat
           (Sample.call {[ "repoPath" := JStr "/srv/repo" ]})).
  vm_compute. reflexivity.
Defined.

(** By contrast, a body that stamps its answer with the time answers two
    consecutive calls differently although it starts no child at all. *)
Example stamped_body_differs :
  let stamped : proc nat := Glance (fun now => Return now) in
  let w' := after Sample.execFile stamped 0%nat in
  (trace Sample.execFile stamped 0%nat).*2 = (trace Sample.execFile stamped w').*2
  /\ result Sample.execFile stamped 0%nat <> result Sample.execFile stamped w'.
Proof. split; [reflexivity | discriminate]. Qed.

(** ** Extra keys *)

Lemma strip_extra_lookup (m : gmap string json) (k : string) :
  k = "repoPath" \/ k = "maxCommits" -> strip_extra m !! k = m !! k.
Proof.
  intros Hk. unfold strip_extra. rewrite map_lookup_filter.
  destruct (m !! k) as [v |]; simpl; [| reflexivity].
  rewrite option_guard_True by exact Hk. reflexivity.
Qed.

Lemma strip_extra_other (m : gmap string json) (k : string) :
  k <> "repoPath" -> k <> "maxCommits" -> strip_extra m !! k = None.
Proof.
  intros H1 H2. unfold strip_extra. apply map_lookup_filter_None.
  right. intros v _ [H | H]; simpl in H; congruence.
Qed.

Lemma parse_strip_extra (m : gmap string json) :
  Zod.parse GitContextSchema (Some (JObj (strip_extra m))) =
  Zod.parse GitContextSchema (Some (JObj m)).
Proof.
  rewrite !GitContextSchema_parse_object, !strip_extra_lookup by auto.
  reflexivity.
Qed.

(** C7. A bag with a valid [repoPath], a valid or absent [maxCommits] and any
    other keys validates, and the handler is the same body on it as on the
    bag without the other keys. *)
Theorem extra_keys_ignored (m : gmap string json) (p : string) :
  m !! "repoPath" = Some (JStr p) ->
  p <> "" ->
  (m !! "maxCommits" = None
   \/ exists n, m !! "maxCommits" = Some (JNum n)
               /\ Zod.isInteger n = true /\ (1 <= n)%Q /\ (n <= 50)%Q) ->
  (exists a, Zod.parse GitContextSchema (Some (JObj m)) = inl a /\ repoPath a = p)
  /\ (forall k, k <> "repoPath" -> k <> "maxCommits" -> strip_extra m !! k = None)
  /\ CallToolHandler (mkParams "git_context" (Some (JObj m))) =
     CallToolHandler (mkParams "git_context" (Some (JObj (strip_extra m)))).
Proof.
  intros Hp Hne Hc. split; [| split].
  - destruct Hc as [Hc | (n & Hc & Hn)].
    + exists (mkArgs p 15). split; [| reflexivity].
      apply GitContextSchema_parse_inl. exists m. simpl. repeat split; auto.
    + exists (mkArgs p n). split; [| reflexivity].
      apply GitContextSchema_parse_inl. exists m. simpl. repeat split; auto.
      right. split; [exact Hc |]. now apply valid_count_spec.
  - intros k. apply strip_extra_other.
  - unfold CallToolHandler. simpl. unfold parse. rewrite parse_strip_extra.
    reflexivity.
Qed.

Lemma extra_keys_ignored_witness :
  CallToolHandler
    (Sample.call {[ "repoPath" := JStr "/srv/repo"; "maxCommits" := JNum 3;
                    "verbose" := JBool true; "since" := JStr "yesterday" ]}) =
  CallToolHandler
    (Sample.call {[ "repoPath" := JStr "/srv/repo"; "maxCommits" := JNum 3 ]}).
Proof.
  replace ({[ "repoPath" := JStr "/srv/repo"; "maxCommits" := JNum 3 ]} : gmap string json)
    with (strip_extra {[ "repoPath" := JStr "/srv/repo"; "maxCommits" := JNum 3;
                         "verbose" := JBool true; "since" := JStr "yesterday" ]})
    by (vm_compute; reflexivity).
  apply (extra_keys_ignored _ "/srv/repo").
  - reflexivity.
  - discriminate.
  - right. exists 3%Q. vm_compute. repeat split; discriminate.
Defined.

(** ** Lines *)

Lemma split_no_sep (sep : ascii) (s : string) :
  contains sep s = false -> split sep s = [s].
Proof.
  induction s as [| c s IH]; simpl; [reflexivity |].
  intros H. apply orb_false_iff in H as [Hc Hs].
  rewrite Hc, (IH Hs). reflexivity.
Qed.

Lemma split_app_sep (sep : ascii) (a b : string) :
  contains sep a = false -> split sep (a +:+ String sep b) = a :: split sep b.
Proof.
  induction a as [| c a IH]; simpl.
  - intros _. now rewrite Ascii.eqb_refl.
  - intros H. apply orb_false_iff in H as [Hc Ha].
    rewrite Hc, (IH Ha). reflexivity.
Qed.

(** Splitting undoes joining when no joined piece holds a line feed. *)
Lemma lines_join (ls : list string) :
  ls <> [] ->
  Forall (fun l => contains LF l = false) ls ->
  lines (join nl ls) = ls.
Proof.
  unfold lines. intros Hne Hall.
  induction Hall as [| l ls Hl Hall IH]; [congruence |].
  destruct ls as [| l' ls].
  - simpl. now apply split_no_sep.
  - change (join nl (l :: l' :: ls)) with (l +:+ String LF (join nl (l' :: ls))).
    rewrite (split_app_sep LF l _ Hl), IH by discriminate. reflexivity.
Qed.

Lemma lines_house_rules_text (mode : string) :
  contains LF mode = false ->
  In ("Mode: " +:+ mode) (lines (house_rules_text mode)).
Proof.
  intros H. unfold house_rules_text. rewrite lines_join.
  - simpl. auto 12.
  - discriminate.
  - repeat constructor. exact H.
Qed.

(** ** The prompt handler *)

Lemma GetPromptHandler_string (params : RequestParams) (m : gmap string json) (s : string) :
  name params = "house_rules" ->
  arguments params = Some (JObj m) ->
  m !! "mode" = Some (JStr s) ->
  GetPromptHandler params = prompt_of (house_rules_text s).
Proof.
  intros Hn Ha Hm. unfold GetPromptHandler. rewrite Hn, Ha. simpl. rewrite Hm.
  reflexivity.
Qed.

Lemma GetPromptHandler_general (params : RequestParams) :
  name params = "house_rules" ->
  (forall s, optional_get (arguments params) "mode" <> Some (JStr s)) ->
  GetPromptHandler params = prompt_of (house_rules_text "general").
Proof.
  intros Hn Hm. unfold GetPromptHandler. rewrite Hn. simpl.
  destruct (optional_get (arguments params) "mode") as [[| | | s | |] |];
    try reflexivity.
  now destruct (Hm s).
Qed.

(** C4. With an empty argument bag the prompt text has the line
    "Mode: general"; with [mode] bound to "review" it has the line
    "Mode: review"; and any string bound to [mode] is put, unchanged, after
    "Mode: " on a line of its own between two fixed parts of the text. *)
Theorem mode_line (params : RequestParams) (m : gmap string json) :
  name params = "house_rules" ->
  arguments params = Some (JObj m) ->
  (m = ∅ ->
     exists text, GetPromptHandler params = prompt_of text
                  /\ In "Mode: general" (lines text))
  /\ (m !! "mode" = Some (JStr "review") ->
        exists text, GetPromptHandler params = prompt_of text
                     /\ In "Mode: review" (lines text))
  /\ (exists before behind,
        forall s, m !! "mode" = Some (JStr s) ->
          GetPromptHandler params =
            prompt_of (before +:+ nl +:+ "Mode: " +:+ s +:+ nl +:+ behind)
          /\ (contains LF s = false ->
                In ("Mode: " +:+ s)
                   (lines (before +:+ nl +:+ "Mode: " +:+ s +:+ nl +:+ behind)))).
Proof.
  intros Hn Ha. split; [| split].
  - intros ->. exists (house_rules_text "general"). split.
    + apply GetPromptHandler_general; [exact Hn |].
      rewrite Ha. simpl. intros s. rewrite lookup_empty. discriminate.
    + now apply lines_house_rules_text.
  - intros Hm. exists (house_rules_text "review"). split.
    + now apply (GetPromptHandler_string params m).
    + now apply lines_house_rules_text.
  - exists (join nl [
      "You are my coding assistant.";
      "";
      "Operating rules:";
      "1) Prefer safe and reversible actions. Start read-only.";
      "2) Summarize what you plan to do before you do it.";
      "3) Keep scope small. If a task is large, propose the smallest next step.";
      "4) Be explicit. Use checklists and concrete commands.";
      "5) If you are blocked, ask one clarifying question. Otherwise proceed.";
      "" ]).
    exists (join nl [
      "";
      "When using tools:";
      "- Explain which tool you are calling and why.";
      "- If a tool can mutate data, confirm intent first." ]).
    intros s Hm.
    change (_ +:+ nl +:+ "Mode: " +:+ s +:+ nl +:+ _) with (house_rules_text s).
    split.
    + now apply (GetPromptHandler_string params m).
    + apply lines_house_rules_text.
Qed.

Lemma mode_line_witness :
  (exists text,
     GetPromptHandler (mkParams "house_rules" (Some (JObj ∅))) = prompt_of text
     /\ In "Mode: general" (lines text))
  /\ (exists text,
        GetPromptHandler
          (mkParams "house_rules" (Some (JObj {[ "mode" := JStr "review" ]}))) =
        prompt_of text
        /\ In "Mode: review" (lines text)).
Proof.
  split.
  - destruct (mode_line (mkParams "house_rules" (Some (JObj ∅))) ∅ eq_refl eq_refl)
      as (H & _ & _).
    apply H. reflexivity.
  - destruct (mode_line
                (mkParams "house_rules" (Some (JObj {[ "mode" := JStr "review" ]})))
                {[ "mode" := JStr "review" ]} eq_refl eq_refl)
      as (_ & H & _).
    apply H. reflexivity.
Defined.

(** ** The handlers behind their request schemas *)

Lemma record_issues_In (value_issues : list string -> json -> list Zod.ZodIssue)
    (p : list string) (m : gmap string json) (k : string) (v : json)
    (issue : Zod.ZodIssue) :
  m !! k = Some v ->
  In issue (value_issues (p ++ [k]) v) ->
  In issue (record_issues value_issues p (Some (JObj m))).
Proof.
  intros Hm Hin. unfold record_issues. apply in_concat.
  exists (value_issues (p ++ [k]) v). split; [| exact Hin].
  apply in_map_iff. exists (k, v). split; [reflexivity |].
  apply list_elem_of_In, elem_of_map_to_list. exact Hm.
Qed.

Lemma record_issues_nil (value_issues : list string -> json -> list Zod.ZodIssue)
    (p : list string) (m : gmap string json) :
  (forall k v, m !! k = Some v -> value_issues (p ++ [k]) v = []) ->
  record_issues value_issues p (Some (JObj m)) = [].
Proof.
  intros Hall. unfold record_issues.
  assert (Hl : forall kv, In kv (map_to_list m) ->
                 value_issues (p ++ [kv.1]) kv.2 = []).
  { intros [k v] Hin. apply Hall.
    apply elem_of_map_to_list, list_elem_of_In. exact Hin. }
  induction (map_to_list m) as [| kv l IH]; simpl; [reflexivity |].
  rewrite (Hl kv) by (simpl; auto). apply IH. intros kv' Hin. apply Hl. simpl. auto.
Qed.

(** A get-prompt request whose arguments are absent or hold strings alone
    reaches the handler as it is; so does a call-tool request whose
    arguments are absent or an object. *)
Lemma get_prompt_reaches_handler (params : RequestParams) :
  (arguments params = None
   \/ exists m : gmap string json,
        arguments params = Some (JObj m)
        /\ forall k v, m !! k = Some v -> exists s, v = JStr s) ->
  server.get_prompt params = GetPromptHandler params.
Proof.
  unfold server.get_prompt, setRequestHandler, GetPromptRequestSchema.
  intros [-> | (m & -> & Hm)]; [reflexivity |].
  rewrite record_issues_nil; [reflexivity |].
  intros k v Hk. destruct (Hm k v Hk) as [s ->]. reflexivity.
Qed.

Lemma call_tool_reaches_handler (params : RequestParams) :
  (arguments params = None \/ exists m, arguments params = Some (JObj m)) ->
  server.call_tool params = CallToolHandler params.
Proof.
  unfold server.call_tool, setRequestHandler, CallToolRequestSchema.
  intros [-> | (m & ->)]; [reflexivity |].
  rewrite record_issues_nil; [reflexivity | reflexivity].
Qed.

(** The request at which the probe's refusal escapes does reach the
    handler. *)
Example nul_path_reaches_handler :
  server.call_tool
    (Sample.call {[ "repoPath" := JStr ("/tmp/v/repo" +:+ String NUL "") ]}) =
  CallToolHandler
    (Sample.call {[ "repoPath" := JStr ("/tmp/v/repo" +:+ String NUL "") ]}).
Proof. apply call_tool_reaches_handler. right. eexists. reflexivity. Qed.

(** A [mode] of 7 is answered with a validation error, not with a prompt. *)
Lemma non_string_mode_is_reported :
  server.get_prompt (mkParams "house_rules" (Some (JObj {[ "mode" := JNum 7 ]}))) =
    Throw (ZodError [Zod.mkIssue Zod.invalid_type ["params"; "arguments"; "mode"]])
  /\ ~ exists text,
        server.get_prompt (mkParams "house_rules" (Some (JObj {[ "mode" := JNum 7 ]}))) =
        prompt_of text.
Proof.
  assert (E : server.get_prompt
                (mkParams "house_rules" (Some (JObj {[ "mode" := JNum 7 ]}))) =
              Throw (ZodError [Zod.mkIssue Zod.invalid_type ["params"; "arguments"; "mode"]]))
    by (vm_compute; reflexivity).
  split; [exact E |]. rewrite E. intros [text Ht]. discriminate Ht.
Qed.

(** C9. A [mode] that is present but is not a string never reaches the
    handler: the request schema it is registered under reports a type
    issue at [arguments.mode] and the request ends with that validation
    error. The handler has no validation of its own: were it called with
    such a request, its [typeof] test would take the mode for absent and
    answer as for an empty bag, with the line "Mode: general". *)
Theorem non_string_mode_is_rejected (params : RequestParams) (m : gmap string json)
    (v : json) :
  name params = "house_rules" ->
  arguments params = Some (JObj m) ->
  m !! "mode" = Some v ->
  (forall s, v <> JStr s) ->
  (exists iss,
     server.get_prompt params = Throw (ZodError iss)
     /\ In (Zod.mkIssue Zod.invalid_type ["params"; "arguments"; "mode"]) iss)
  /\ GetPromptHandler params = GetPromptHandler (mkParams "house_rules" (Some (JObj ∅)))
  /\ exists text, GetPromptHandler params = prompt_of text
                  /\ In "Mode: general" (lines text).
Proof.
  intros Hn Ha Hm Hv. split.
  - unfold server.get_prompt, setRequestHandler.
    assert (Hin : In (Zod.mkIssue Zod.invalid_type ["params"; "arguments"; "mode"])
                     (GetPromptRequestSchema params)).
    { unfold GetPromptRequestSchema. rewrite Ha.
      apply (record_issues_In _ _ m "mode" v); [exact Hm |].
      destruct v; simpl; auto. now destruct (Hv s). }
    destruct (GetPromptRequestSchema params) as [| i iss]; [destruct Hin |].
    eexists. split; [reflexivity | exact Hin].
  - assert (E : GetPromptHandler params = prompt_of (house_rules_text "general")).
    { apply GetPromptHandler_general; [exact Hn |].
      rewrite Ha. simpl. rewrite Hm. intros s [= ->]. now destruct (Hv s). }
    split.
    + rewrite E. reflexivity.
    + exists (house_rules_text "general"). split; [exact E |].
      now apply lines_house_rules_text.
Qed.

Lemma non_string_mode_is_rejected_witness :
  exists iss,
    server.get_prompt (mkParams "house_rules" (Some (JObj {[ "mode" := JBool true ]}))) =
    Throw (ZodError iss)
    /\ In (Zod.mkIssue Zod.invalid_type ["params"; "arguments"; "mode"]) iss.
Proof.
  destruct (non_string_mode_is_rejected
              (mkParams "house_rules" (Some (JObj {[ "mode" := JBool true ]})))
              {[ "mode" := JBool true ]} (JBool true) eq_refl eq_refl) as [H _].
  - reflexivity.
  - discriminate.
  - exact H.
Defined.

(** ** Examples *)

(** A path with blanks and shell metacharacters travels as one argument. *)
Example path_with_metacharacters :
  trace Sample.execFile
        (CallToolHandler (Sample.call {[ "repoPath" := JStr "/srv/my repo; rm -rf $HOME" ]}))
        0%nat =
    [(mkInvocation "git"
        ["-C"; "/srv/my repo; rm -rf $HOME"; "rev-parse"; "--is-inside-work-tree"],
      Sample.fatal)].
Proof. vm_compute. reflexivity. Qed.

(** A name other than [git_context] starts nothing. *)
Example unknown_tool :
  CallToolHandler (mkParams "git_log" (Some (JObj ∅))) = Throw (Error "Unknown tool: git_log").
Proof. reflexivity. Qed.

Example trim_both_ends : trim ("  true" +:+ nl) = "true".
Proof. reflexivity. Qed.

Example split_two_lines : split LF ("a" +:+ nl +:+ "b") = ["a"; "b"].
Proof. reflexivity. Qed.

Example count_bounds :
  valid_count 1 = true /\ valid_count 50 = true /\ valid_count 0 = false
  /\ valid_count 51 = false /\ valid_count 2.5 = false.
Proof. repeat split. Qed.

(** * Further properties *)

(** ** Discovery and dispatch agree *)

(** X1. A get-prompt request is served exactly for the names that
    list-prompts advertises: for such a name the handler returns a prompt
    whatever the arguments are (absent, null, an array, anything), and for
    any other name it throws "Unknown prompt: <name>". *)
Theorem get_prompt_serves_advertised (params : RequestParams) :
  (In (name params) (map Prompt.name advertised_prompts) ->
     exists text, GetPromptHandler params = prompt_of text)
  /\ (~ In (name params) (map Prompt.name advertised_prompts) ->
        GetPromptHandler params = Throw (Error ("Unknown prompt: " +:+ name params))).
Proof.
  unfold GetPromptHandler. split.
  - intros [<- | []]. simpl. eexists. reflexivity.
  - intros Hn. destruct (String.eqb_spec (name params) "house_rules") as [E | E].
    + destruct Hn. left. symmetry. exact E.
    + reflexivity.
Qed.

Lemma get_prompt_serves_advertised_witness :
  (exists text, GetPromptHandler (mkParams "house_rules" (Some (JArr []))) = prompt_of text)
  /\ GetPromptHandler (mkParams "house_rulez" None) =
       Throw (Error "Unknown prompt: house_rulez").
Proof.
  split.
  - apply (get_prompt_serves_advertised (mkParams "house_rules" (Some (JArr [])))).
    simpl. auto.
  - apply (get_prompt_serves_advertised (mkParams "house_rulez" None)).
    simpl. intros [H | []]. discriminate H.
Defined.

(** X2. A call-tool request for a name that list-tools does not advertise
    throws "Unknown tool: <name>" before the arguments are looked at and
    without a call of [execFile]; for an advertised name the handler never
    throws an error of that kind: what it throws then is a [ZodError], the
    [TypeError] with which Node refuses a call, or the rejection of a
    child. *)
Theorem call_tool_serves_advertised {World : Type} `{Surroundings World}
    (execFile : World -> Invocation -> settled * World) (w : World)
    (params : RequestParams) :
  (~ In (name params) (map Tool.name advertised_tools) ->
     run execFile (CallToolHandler params) w =
       (Threw (Error ("Unknown tool: " +:+ name params)), [], w))
  /\ (In (name params) (map Tool.name advertised_tools) ->
        forall e, result execFile (CallToolHandler params) w = Threw e ->
          (exists iss, e = ZodError iss)
          \/ (exists code, e = TypeError code)
          \/ (exists rejection, e = ExecError rejection)).
Proof.
  unfold result, CallToolHandler. split.
  - intros Hn. destruct (String.eqb_spec (name params) "git_context") as [E | E].
    + destruct Hn. left. symmetry. exact E.
    + reflexivity.
  - intros [<- | []] e. simpl. unfold parse.
    destruct (Zod.parse GitContextSchema (arguments params)) as [a | iss]; simpl;
      [| intros [= <-]; eauto].
    walk_handler execFile; intros [= <-]; eauto.
Qed.

Lemma call_tool_serves_advertised_witness :
  run Sample.execFile (CallToolHandler (mkParams "git_log" (Some (JNum 7)))) 0%nat =
    (Threw (Error "Unknown tool: git_log"), [], 0%nat)
  /\ ((exists iss, TypeError "ERR_INVALID_ARG_VALUE" = ZodError iss)
      \/ (exists code, TypeError "ERR_INVALID_ARG_VALUE" = TypeError code)
      \/ (exists rejection, TypeError "ERR_INVALID_ARG_VALUE" = ExecError rejection)).
Proof.
  split.
  - apply (call_tool_serves_advertised Sample.execFile 0%nat
             (mkParams "git_log" (Some (JNum 7)))).
    simpl. intros [H | []]. discriminate H.
  - apply (call_tool_serves_advertised Sample.execFile 0%nat
             (Sample.call {[ "repoPath" := JStr ("/tmp/v/repo" +:+ String NUL "") ]})).
    + simpl. auto.
    + vm_compute. reflexivity.
Defined.

(** X3. Every argument that list-prompts advertises is declared optional,
    and it is: without that key the prompt is the one an empty bag gets,
    with the line "Mode: general". *)
Theorem advertised_prompt_arguments_optional
    (prompt : Prompt.t) (argument : PromptArgument.t) (m : gmap string json) :
  In prompt advertised_prompts ->
  In argument (Prompt.arguments prompt) ->
  PromptArgument.required argument = false
  /\ GetPromptHandler
       (mkParams (Prompt.name prompt) (Some (JObj (delete (PromptArgument.name argument) m)))) =
     GetPromptHandler (mkParams (Prompt.name prompt) (Some (JObj ∅)))
  /\ exists text,
       GetPromptHandler (mkParams (Prompt.name prompt) (Some (JObj ∅))) = prompt_of text
       /\ In "Mode: general" (lines text).
Proof.
  intros [<- | []] [<- | []]. simpl. split; [reflexivity |].
  assert (E : forall b : gmap string json, b !! "mode" = None ->
            GetPromptHandler (mkParams "house_rules" (Some (JObj b))) =
            prompt_of (house_rules_text "general")).
  { intros b Hb. apply GetPromptHandler_general; [reflexivity |].
    simpl. rewrite Hb. discriminate. }
  rewrite !E by (apply lookup_delete_eq || apply lookup_empty).
  split; [reflexivity |]. eexists. split; [reflexivity |].
  now apply lines_house_rules_text.
Qed.

Lemma advertised_prompt_arguments_optional_witness :
  GetPromptHandler
    (mkParams "house_rules"
       (Some (JObj (delete "mode" {[ "mode" := JStr "review"; "tone" := JStr "dry" ]})))) =
  GetPromptHandler (mkParams "house_rules" (Some (JObj ∅))).
Proof.
  apply (advertised_prompt_arguments_optional
           (Prompt.mk "house_rules"
              "Reusable instructions for how I want the assistant to behave (safe, scoped, and consistent)."
              [ PromptArgument.mk "mode"
                  "Optional: what kind of work we are doing (review, triage, release-notes)."
                  false ])
           (PromptArgument.mk "mode"
              "Optional: what kind of work we are doing (review, triage, release-notes)."
              false)
           {[ "mode" := JStr "review"; "tone" := JStr "dry" ]}).
  - simpl. auto.
  - simpl. auto.
Defined.

(** ** The advertised input schema and [GitContextSchema] *)

Lemma parse_without_path (m : gmap string json) :
  m !! "repoPath" = None ->
  exists iss, Zod.parse GitContextSchema (Some (JObj m)) = inr iss
              /\ In (Zod.mkIssue Zod.invalid_type ["repoPath"]) iss.
Proof.
  intros Hm. rewrite GitContextSchema_parse_object, Hm.
  rewrite path_schema_other by discriminate.
  destruct (count_schema _ _) as [i2 | n i2]; eexists; (split; [reflexivity |]);
    simpl; auto.
Qed.

(** X4. Among the keys that list-tools describes, those listed as
    [required] are exactly those whose absence always makes the call throw
    a [ZodError]. *)
Theorem advertised_required_keys (tool : Tool.t) (k : string) :
  In tool advertised_tools ->
  In k (map fst (InputSchema.properties (Tool.inputSchema tool))) ->
  In k (InputSchema.required (Tool.inputSchema tool)) <->
  forall m : gmap string json,
    m !! k = None ->
    exists iss, CallToolHandler (mkParams (Tool.name tool) (Some (JObj m))) = Throw (ZodError iss).
Proof.
  intros [<- | []] [<- | [<- | []]]; simpl.
  - split; [| auto]. intros _ m Hm.
    destruct (parse_without_path m Hm) as (iss & E & _). exists iss.
    now apply CallToolHandler_invalid.
  - split.
    + intros [H | []]. discriminate H.
    + intros H. exfalso.
      destruct (H {[ "repoPath" := JStr "/" ]}) as [iss E]; [reflexivity |].
      vm_compute in E. discriminate E.
Qed.

Lemma advertised_required_keys_witness :
  exists iss,
    CallToolHandler (mkParams "git_context" (Some (JObj {[ "maxCommits" := JNum 3 ]}))) =
    Throw (ZodError iss).
Proof.
  apply (advertised_required_keys
           (Tool.mk "git_context"
              "Fetches a compact git context bundle so the assistant stops asking for basic repo details."
              (InputSchema.mk "object"
                 [ ("repoPath", ToolProperty.mk "string" "Absolute repo path" None);
                   ("maxCommits",
                    ToolProperty.mk "number" "Max commits (1..50)" (Some (JNum 15))) ]
                 ["repoPath"]))
           "repoPath").
  - simpl. auto.
  - simpl. auto.
  - simpl. auto.
  - reflexivity.
Defined.

(** X5. A default that list-tools advertises for a key is the value the
    handler works with when the key is left out: the call without the key
    and the call with the key bound to the advertised default are the same
    body. *)
Theorem advertised_defaults_apply (tool : Tool.t) (k : string) (prop : ToolProperty.t)
    (d : json) (m : gmap string json) :
  In tool advertised_tools ->
  In (k, prop) (InputSchema.properties (Tool.inputSchema tool)) ->
  ToolProperty.default prop = Some d ->
  m !! k = None ->
  CallToolHandler (mkParams (Tool.name tool) (Some (JObj m))) =
  CallToolHandler (mkParams (Tool.name tool) (Some (JObj (<[k := d]> m)))).
Proof.
  intros [<- | []] [[= <- <-] | [[= <- <-] | []]]; simpl; [discriminate |].
  intros [= <-] Hm. unfold CallToolHandler, parse. simpl.
  rewrite !GitContextSchema_parse_object.
  rewrite lookup_insert_eq, lookup_insert_ne, Hm by discriminate.
  reflexivity.
Qed.

Lemma advertised_defaults_apply_witness :
  CallToolHandler (mkParams "git_context" (Some (JObj {[ "repoPath" := JStr "/srv/repo" ]}))) =
  CallToolHandler
    (mkParams "git_context"
       (Some (JObj (<[ "maxCommits" := JNum 15 ]> {[ "repoPath" := JStr "/srv/repo" ]})))).
Proof.
  apply (advertised_defaults_apply
           (Tool.mk "git_context"
              "Fetches a compact git context bundle so the assistant stops asking for basic repo details."
              (InputSchema.mk "object"
                 [ ("repoPath", ToolProperty.mk "string" "Absolute repo path" None);
                   ("maxCommits",
                    ToolProperty.mk "number" "Max commits (1..50)" (Some (JNum 15))) ]
                 ["repoPath"]))
           "maxCommits"
           (ToolProperty.mk "number" "Max commits (1..50)" (Some (JNum 15)))
           (JNum 15) {[ "repoPath" := JStr "/srv/repo" ]}).
  - simpl. auto.
  - simpl. auto.
  - reflexivity.
  - reflexivity.
Defined.

(** X6. What the handler accepts is what list-tools describes, and less:
    every argument bag that validates conforms to the advertised input
    schema, while a bag can conform (an empty path, a count of zero) and be
    rejected all the same. *)
Theorem validated_conforms_to_advertised (tool : Tool.t) :
  In tool advertised_tools ->
  (forall input a,
     Zod.parse GitContextSchema input = inl a ->
     conforms (Tool.inputSchema tool) input = true)
  /\ exists input iss,
       conforms (Tool.inputSchema tool) input = true
       /\ Zod.parse GitContextSchema input = inr iss.
Proof.
  intros [<- | []]. split.
  - intros input a H.
    apply GitContextSchema_parse_inl in H as (m & -> & Hp & _ & Hc).
    unfold conforms. simpl. rewrite Hp. simpl.
    destruct Hc as [[-> _] | [-> _]]; reflexivity.
  - exists (Some (JObj {[ "repoPath" := JStr ""; "maxCommits" := JNum 0 ]})).
    eexists. split; vm_compute; reflexivity.
Qed.

Lemma validated_conforms_to_advertised_witness :
  conforms
    (InputSchema.mk "object"
       [ ("repoPath", ToolProperty.mk "string" "Absolute repo path" None);
         ("maxCommits", ToolProperty.mk "number" "Max commits (1..50)" (Some (JNum 15))) ]
       ["repoPath"])
    (Some (JObj {[ "repoPath" := JStr "/srv/repo"; "maxCommits" := JNum 3 ]})) = true.
Proof.
  eapply (validated_conforms_to_advertised
            (Tool.mk "git_context"
               "Fetches a compact git context bundle so the assistant stops asking for basic repo details."
               _)).
  - simpl. left. reflexivity.
  - instantiate (1 := mkArgs "/srv/repo" 3). vm_compute. reflexivity.
Defined.

(** ** What the tool handler does to the outside world *)

Lemma validates_iff (input : option json) (p : string) :
  (exists a, Zod.parse GitContextSchema input = inl a /\ repoPath a = p) <->
  exists m : gmap string json,
    input = Some (JObj m)
    /\ m !! "repoPath" = Some (JStr p) /\ p <> ""
    /\ (m !! "maxCommits" = None
        \/ exists n, m !! "maxCommits" = Some (JNum n)
                    /\ Zod.isInteger n = true /\ (1 <= n)%Q /\ (n <= 50)%Q).
Proof.
  split.
  - intros (a & Hp & <-).
    apply GitContextSchema_parse_inl in Hp as (m & Ha & Hpath & Hne & Hc).
    exists m. repeat split; auto.
    destruct Hc as [[Hc _] | [Hc Hv]]; [now left | right].
    exists (maxCommits a). split; [exact Hc |]. now apply valid_count_spec.
  - intros (m & Ha & Hpath & Hne & Hc).
    destruct Hc as [Hc | (n & Hc & Hv)].
    + exists (mkArgs p 15). split; [| reflexivity].
      apply GitContextSchema_parse_inl. exists m. simpl. repeat split; auto.
    + exists (mkArgs p n). split; [| reflexivity].
      apply GitContextSchema_parse_inl. exists m. simpl. repeat split; auto.
      right. split; [exact Hc |]. now apply valid_count_spec.
Qed.

(** X7. The handler calls [execFile] exactly when the request names the tool
    and its arguments are an object with a non-empty string [repoPath] and a
    [maxCommits] that is absent or an integer from 1 to 50; in every other
    case nothing outside the server is touched. A child process is started
    exactly when, besides, Node does not refuse the first call, the probe
    (it refuses it when the path holds a NUL code unit). *)
Theorem execFile_called_iff_valid {World : Type} `{Surroundings World}
    (execFile : World -> Invocation -> settled * World) (w : World)
    (params : RequestParams) :
  let valid (p : string) :=
    name params = "git_context"
    /\ exists m : gmap string json,
         arguments params = Some (JObj m)
         /\ m !! "repoPath" = Some (JStr p) /\ p <> ""
         /\ (m !! "maxCommits" = None
             \/ exists n, m !! "maxCommits" = Some (JNum n)
                         /\ Zod.isInteger n = true /\ (1 <= n)%Q /\ (n <= 50)%Q) in
  let t := trace execFile (CallToolHandler params) w in
  (t <> [] <-> exists p, valid p)
  /\ ((exists ir, In ir t /\ started ir.2 = true) <->
      exists p, valid p /\ started (execFile w (probe_invocation p)).1 = true).
Proof.
  intros valid t.
  assert (Hvalid : forall p, valid p <->
            name params = "git_context"
            /\ exists a, Zod.parse GitContextSchema (arguments params) = inl a
                         /\ repoPath a = p).
  { intros p. unfold valid. now rewrite validates_iff. }
  subst t. unfold trace, CallToolHandler, parse.
  destruct (String.eqb_spec (name params) "git_context") as [E | E]; simpl.
  2: { split; split;
         solve [ congruence
               | intros (ir & [] & _)
               | intros (p & Hp); apply Hvalid in Hp; tauto
               | intros (p & Hp & _); apply Hvalid in Hp; tauto ]. }
  destruct (Zod.parse GitContextSchema (arguments params)) as [a | iss] eqn:Hparse;
    simpl.
  2: { split; split;
         solve [ congruence
               | intros (ir & [] & _)
               | intros (p & Hp); apply Hvalid in Hp as (_ & a & Ha & _); discriminate Ha
               | intros (p & Hp & _); apply Hvalid in Hp as (_ & a & Ha & _);
                 discriminate Ha ]. }
  assert (Hmine : valid (repoPath a)) by (apply Hvalid; eauto).
  assert (Honly : forall p, valid p -> p = repoPath a).
  { intros p Hp. apply Hvalid in Hp as (_ & a' & [= <-] & <-). reflexivity. }
  unfold probe_invocation.
  destruct (execFile w _) as [r w1] eqn:He. split.
  - split; [eauto |]. intros _.
    destruct (run execFile _ w1) as [[o t] w2]. discriminate.
  - split.
    + intros (ir & Hin & Hs). exists (repoPath a). split; [exact Hmine |].
      rewrite He. simpl. destruct r as [out | e | code]; try reflexivity.
      simpl in Hin. destruct Hin as [<- | []]. discriminate Hs.
    + intros (p & Hp & Hs). rewrite (Honly p Hp), He in Hs. simpl in Hs.
      destruct (run execFile _ w1) as [[o t] w2]. simpl.
      exists (mkInvocation "git" ["-C"; repoPath a; "rev-parse"; "--is-inside-work-tree"], r).
      simpl. auto.
Qed.

Lemma execFile_called_iff_valid_witness :
  (exists first rest,
     trace Sample.execFile
           (CallToolHandler
              (Sample.call {[ "repoPath" := JStr ("/tmp/v/repo" +:+ String NUL "") ]}))
           0%nat = first :: rest)
  /\ (exists ir,
        In ir (trace Sample.execFile
                 (CallToolHandler
                    (Sample.call {[ "repoPath" := JStr "/tmp"; "maxCommits" := JNum 50 ]}))
                 0%nat)
        /\ started ir.2 = true).
Proof.
  split.
  - destruct (trace Sample.execFile
                (CallToolHandler
                   (Sample.call {[ "repoPath" := JStr ("/tmp/v/repo" +:+ String NUL "") ]}))
                0%nat) as [| first rest] eqn:E; [exfalso | eauto].
    revert E.
    apply (execFile_called_iff_valid Sample.execFile 0%nat
             (Sample.call {[ "repoPath" := JStr ("/tmp/v/repo" +:+ String NUL "") ]})).
    exists ("/tmp/v/repo" +:+ String NUL ""). split; [reflexivity |].
    eexists. split; [reflexivity |]. split; [reflexivity |]. split; [discriminate |].
    left. reflexivity.
  - apply (execFile_called_iff_valid Sample.execFile 0%nat
             (Sample.call {[ "repoPath" := JStr "/tmp"; "maxCommits" := JNum 50 ]})).
    exists "/tmp". split; [| reflexivity].
    split; [reflexivity |].
    eexists. split; [reflexivity |]. split; [reflexivity |]. split; [discriminate |].
    right. exists 50%Q. vm_compute. repeat split; discriminate.
Defined.

(** X8. The child processes of one call are started in the order probe,
    branch, commits, diffstat, none twice and none skipped, so there are at
    most four; and a child is only started when every one before it was
    resolved: a rejection can only be the last entry. *)
Theorem invocations_in_order {World : Type} `{Surroundings World}
    (execFile : World -> Invocation -> settled * World) (w : World)
    (params : RequestParams) (a : GitContextArgs) :
  Zod.parse GitContextSchema (arguments params) = inl a ->
  (exists rest, four_invocations a = map fst (trace execFile (CallToolHandler params) w) ++ rest)
  /\ Forall (fun ir : Invocation * settled => exists out, ir.2 = Resolved out)
            (removelast (trace execFile (CallToolHandler params) w)).
Proof.
  intros Hp. unfold trace, CallToolHandler, parse, four_invocations,
    probe_invocation, branch_invocation, commits_invocation, diffstat_invocation.
  destruct (String.eqb (name params) "git_context"); simpl;
    [| split; [eexists; reflexivity | constructor]].
  rewrite Hp. simpl.
  walk_handler execFile; (split; [eexists; reflexivity | repeat constructor; eauto]).
Qed.

Lemma invocations_in_order_witness :
  exists rest,
    four_invocations (mkArgs "/srv/repo" 15) =
    map fst (trace (Sample.execFile_limited 3)
               (CallToolHandler (Sample.call {[ "repoPath" := JStr "/srv/repo" ]})) 0%nat)
    ++ rest.
Proof.
  apply (invocations_in_order (Sample.execFile_limited 3) 0%nat
           (Sample.call {[ "repoPath" := JStr "/srv/repo" ]}) (mkArgs "/srv/repo" 15)).
  vm_compute. reflexivity.
Defined.

(** X9. The six ways a call can end, and no other. It returns the "not a
    repository" text after one call of [execFile], or the report after four;
    it throws a plain error only for a wrong name and a [ZodError] only for
    arguments that do not validate, in both cases with no call made; it
    throws a child's rejection only after the probe answered [true], that
    rejection being the last of two to four calls; and it throws a
    [TypeError] only for arguments that validate, when Node refused the last
    of one to four calls. *)
Theorem outcome_classification {World : Type} `{Surroundings World}
    (execFile : World -> Invocation -> settled * World) (w : World)
    (params : RequestParams) :
  let t := trace execFile (CallToolHandler params) w in
  match result execFile (CallToolHandler params) w with
  | Returned r =>
      exists a,
        Zod.parse GitContextSchema (arguments params) = inl a
        /\ ((r = mkToolResult [TextContent ("Not a git repository: " +:+ repoPath a)]
             /\ length t = 1%nat)
            \/ (exists branch commits diffstat,
                  r = mkToolResult [TextContent (report branch commits diffstat)]
                  /\ length t = 4%nat))
  | Threw (Error message) =>
      name params <> "git_context" /\ t = []
  | Threw (ZodError iss) =>
      Zod.parse GitContextSchema (arguments params) = inr iss /\ t = []
  | Threw (ExecError e) =>
      exists a o0 i,
        Zod.parse GitContextSchema (arguments params) = inl a
        /\ head t = Some (probe_invocation (repoPath a), Resolved o0)
        /\ trim (stdout o0) = "true"
        /\ last t = Some (i, Rejected e)
        /\ (2 <= length t <= 4)%nat
  | Threw (TypeError code) =>
      exists a i,
        Zod.parse GitContextSchema (arguments params) = inl a
        /\ head t = Some (probe_invocation (repoPath a), (execFile w (probe_invocation (repoPath a))).1)
        /\ last t = Some (i, Thrown code)
        /\ (1 <= length t <= 4)%nat
  end.
Proof.
  unfold trace, result, CallToolHandler, parse, probe_invocation.
  destruct (String.eqb_spec (name params) "git_context") as [E | E]; simpl;
    [| split; [exact E | reflexivity]].
  destruct (Zod.parse GitContextSchema (arguments params)) as [a | iss]; simpl;
    [| split; reflexivity].
  destruct (execFile w _) as [r0 w1] eqn:He0. simpl.
  destruct r0 as [o0 | e0 | c0]; simpl.
  - walk_handler execFile;
      repeat match goal with
             | H : String.eqb _ _ = true |- _ => apply String.eqb_eq in H
             end;
      first
        [ exists a; split; [reflexivity | left; split; reflexivity]
        | exists a, o0; eexists; repeat split; (reflexivity || assumption || lia)
        | exists a; eexists; rewrite He0; repeat split; (reflexivity || lia)
        | exists a; split; [reflexivity |]; right;
          eexists _, _, _; rewrite payload_report; split; reflexivity ].
  - exists a; split; [reflexivity | left; split; reflexivity].
  - exists a; eexists; rewrite He0; repeat split; (reflexivity || lia).
Qed.

(** ** The count handed to git *)

Lemma valid_count_integer (n : Q) :
  valid_count n = true ->
  exists z : Z, (1 <= z <= 50)%Z /\ (n == inject_Z z)%Q /\ (Qnum n / Zpos (Qden n))%Z = z.
Proof.
  intros H. apply valid_count_spec in H as (Hi & Hlo & Hhi).
  unfold Zod.isInteger in Hi. apply Z.eqb_eq in Hi.
  apply Z.div_exact in Hi; [| discriminate].
  set (z := (Qnum n / Zpos (Qden n))%Z) in *.
  unfold Qle in Hlo, Hhi. simpl in Hlo, Hhi.
  exists z. split; [| split; [| reflexivity]].
  - rewrite Hi in Hlo, Hhi. split; nia.
  - unfold Qeq. simpl. lia.
Qed.

(** X10. The count that follows [-n] in the commit listing is always the
    decimal numeral of an integer from 1 to 50, the validated [maxCommits],
    and that numeral reads back as that integer. *)
Theorem commit_count_numeral (input : option json) (a : GitContextArgs) :
  Zod.parse GitContextSchema input = inl a ->
  exists z : Z,
    (1 <= z <= 50)%Z
    /\ (maxCommits a == inject_Z z)%Q
    /\ args (commits_invocation (repoPath a) (maxCommits a)) !! 4%nat =
         Some (NilZero.string_of_int (Z.to_int z))
    /\ Z.of_int <$> NilZero.int_of_string (NilZero.string_of_int (Z.to_int z)) = Some z.
Proof.
  intros H. apply GitContextSchema_range in H as [_ Hv].
  destruct (valid_count_integer _ Hv) as (z & Hz & Hq & Hd).
  exists z. repeat split; try tauto.
  - simpl. unfold String_of_number. rewrite Hd. reflexivity.
  - rewrite NilZero.isi.
    + simpl. now rewrite DecimalZ.of_to.
    + destruct z as [| p | p]; try lia. simpl. intros [= Hp].
      now apply DecimalPos.Unsigned.to_uint_nonnil in Hp.
    + destruct z as [| p | p]; try lia. discriminate.
Qed.

Lemma commit_count_numeral_witness :
  exists z : Z,
    (1 <= z <= 50)%Z
    /\ args (commits_invocation "/srv/repo" 42) !! 4%nat =
         Some (NilZero.string_of_int (Z.to_int z)).
Proof.
  destruct (commit_count_numeral
              (Some (JObj {[ "repoPath" := JStr "/srv/repo"; "maxCommits" := JNum 42 ]}))
              (mkArgs "/srv/repo" 42)) as (z & Hz & _ & Hn & _).
  - vm_compute. reflexivity.
  - exists z. split; [exact Hz | exact Hn].
Defined.

(** ** Lines of the texts *)

Lemma split_not_nil (sep : ascii) (s : string) : split sep s <> [].
Proof.
  destruct s as [| c s]; simpl; [discriminate |].
  destruct (Ascii.eqb c sep); [discriminate |].
  destruct (split sep s); discriminate.
Qed.

Lemma split_sep_free (sep : ascii) (s : string) :
  Forall (fun l => contains sep l = false) (split sep s).
Proof.
  induction s as [| c s IH]; simpl; [repeat constructor |].
  destruct (Ascii.eqb c sep) eqn:Hc; [constructor; [reflexivity | exact IH] |].
  destruct (split sep s) as [| h t]; [repeat constructor; simpl; now rewrite Hc |].
  inversion IH as [| ? ? Hh Ht]; subst.
  constructor; [simpl; now rewrite Hc, Hh | exact Ht].
Qed.

Lemma split_app (sep : ascii) (a b : string) :
  split sep (a +:+ String sep b) = split sep a ++ split sep b.
Proof.
  induction a as [| c a IH]; simpl.
  - now rewrite Ascii.eqb_refl.
  - rewrite IH. destruct (Ascii.eqb c sep); [reflexivity |].
    destruct (split sep a) as [| h t] eqn:E; [now destruct (split_not_nil sep a) |].
    reflexivity.
Qed.

(** The lines of joined pieces are the lines of the pieces. *)
Lemma lines_join_concat (xs : list string) :
  xs <> [] -> lines (join nl xs) = concat (map lines xs).
Proof.
  unfold lines. intros Hne. induction xs as [| x [| y xs] IH]; [congruence | |].
  - simpl. now rewrite app_nil_r.
  - change (join nl (x :: y :: xs)) with (x +:+ String LF (join nl (y :: xs))).
    rewrite split_app, IH by discriminate. reflexivity.
Qed.

Lemma lines_bullets (ls : list string) :
  ls <> [] ->
  Forall (fun l => contains LF l = false) ls ->
  lines (join nl (map (fun l => "- " +:+ l) ls)) = map (fun l => "- " +:+ l) ls.
Proof.
  intros Hne Hall. apply lines_join.
  - destruct ls; [congruence | discriminate].
  - apply Forall_map. eapply Forall_impl; [exact Hall |]. intros l Hl. exact Hl.
Qed.

Lemma length_split (sep : ascii) (s : string) :
  length (split sep s) = S (occurrences sep s).
Proof.
  induction s as [| c s IH]; simpl; [reflexivity |].
  destruct (Ascii.eqb c sep); simpl; [now rewrite IH |].
  destruct (split sep s) as [| h t]; [discriminate IH | exact IH].
Qed.

(** X11. The lines of the report, for any outputs: the header, the branch
    line, a blank line and the commits heading, then one "- " entry for each
    line of the commit listing, in order (or "- None" for an empty listing),
    a blank line, the diffstat heading and the opening fence, the lines of
    the diffstat, and the closing fence. *)
Theorem report_lines (branch commits diffstat : string) :
  lines (payload branch commits diffstat) =
    ["# Repo Context"]
    ++ lines ("- Branch: " +:+ branch)
    ++ [""; "## Recent commits"]
    ++ (if isEmpty commits then ["- None"]
        else map (fun l => "- " +:+ l) (lines commits))
    ++ [""; "## Latest commit diffstat"; "```"]
    ++ lines diffstat
    ++ ["```"].
Proof.
  unfold payload. rewrite lines_join_concat by discriminate.
  cbn [map concat]. rewrite app_nil_r.
  change (lines "# Repo Context") with ["# Repo Context"].
  change (lines "") with [""].
  change (lines "## Recent commits") with ["## Recent commits"].
  change (lines "## Latest commit diffstat") with ["## Latest commit diffstat"].
  change (lines "```") with ["```"].
  destruct (isEmpty commits) eqn:E.
  - reflexivity.
  - rewrite lines_bullets; [reflexivity | apply split_not_nil | apply split_sep_free].
Qed.

(** X12. The prompt text is nine fixed lines, the lines of "Mode: <mode>",
    and four fixed lines; the mode is not escaped, so the text has fourteen
    lines plus one for every line feed in the mode. *)
Theorem house_rules_lines :
  exists before behind : list string,
    length before = 9%nat /\ length behind = 4%nat
    /\ forall mode,
         lines (house_rules_text mode) = before ++ lines ("Mode: " +:+ mode) ++ behind
         /\ length (lines (house_rules_text mode)) = (14 + occurrences LF mode)%nat.
Proof.
  exists (firstn 9 (lines (house_rules_text ""))),
         (skipn 10 (lines (house_rules_text ""))).
  split; [reflexivity | split; [reflexivity |]].
  intros mode.
  assert (E : lines (house_rules_text mode) =
              firstn 9 (lines (house_rules_text ""))
              ++ lines ("Mode: " +:+ mode)
              ++ skipn 10 (lines (house_rules_text ""))).
  { unfold house_rules_text. rewrite lines_join_concat by discriminate. reflexivity. }
  split; [exact E |].
  rewrite E, !length_app. unfold lines at 2. rewrite length_split. simpl.
  change ("" +:+ mode) with mode. lia.
Qed.

(** ** What the probe takes for a yes *)

(** X13. The handler goes on past the probe exactly when the probe's
    standard output is the word [true] with nothing but white space around
    it (git prints it followed by a line feed); any other output, such as
    [false] or [true] with other text, ends the call with the "not a
    repository" text. *)
Theorem probe_positive_iff {World : Type} `{Surroundings World}
    (execFile : World -> Invocation -> settled * World) (w w1 : World)
    (params : RequestParams) (a : GitContextArgs) (o0 : ExecOutput) :
  name params = "git_context" ->
  Zod.parse GitContextSchema (arguments params) = inl a ->
  execFile w (probe_invocation (repoPath a)) = (Resolved o0, w1) ->
  (1 < length (trace execFile (CallToolHandler params) w))%nat <->
  exists l r, blank l = true /\ blank r = true /\ stdout o0 = l +:+ "true" +:+ r.
Proof.
  intros Hn Hp H0.
  assert (Hlen : (1 < length (trace execFile (CallToolHandler params) w))%nat
                 <-> trim (stdout o0) = "true").
  { unfold trace. enter_handler Hn Hp. unfold probe_invocation in H0. rewrite H0.
    simpl. destruct (String.eqb_spec (trim (stdout o0)) "true") as [E | E]; simpl.
    - destruct (execFile w1 _) as [r1 w2].
      destruct (run execFile _ w2) as [[o t] w3]. simpl. split; [auto | lia].
    - split; [lia | congruence]. }
  rewrite Hlen. unfold trim. split.
  - intros E.
    destruct (trimStart_split (stdout o0)) as (l & Hl & El).
    destruct (trimEnd_split (trimStart (stdout o0))) as (r & Hr & Er).
    exists l, r. rewrite E in Er. rewrite Er in El. auto.
  - intros (l & r & Hl & Hr & ->).
    rewrite (trimStart_blank_app l _ Hl).
    change (trimStart ("true" +:+ r)) with ("true" +:+ r).
    now rewrite (trimEnd_app_blank "true" r Hr).
Qed.

Lemma probe_positive_iff_witness :
  (1 < length (trace Sample.execFile
                 (CallToolHandler (Sample.call {[ "repoPath" := JStr "/srv/repo" ]}))
                 0%nat))%nat.
Proof.
  apply (probe_positive_iff Sample.execFile 0%nat 1%nat
           (Sample.call {[ "repoPath" := JStr "/srv/repo" ]}) (mkArgs "/srv/repo" 15)
           (mkOutput ("true" +:+ nl) "")).
  - reflexivity.
  - vm_compute. reflexivity.
  - reflexivity.
  - exists "", nl. repeat split.
Defined.

(** ** Start-up *)

(** X14. Starting the server writes nothing to standard output, whether the
    transport connects or not: it appends one line feed terminated message
    to standard error, and the process exits, with status 1, exactly when
    connecting failed. *)
Theorem main_keeps_stdout_clean (connect : option string) (p : process.t) :
  process.exitCode p = None ->
  exists message,
    process.stdout (main connect p) = process.stdout p
    /\ process.stderr (main connect p) = process.stderr p +:+ message +:+ nl
    /\ (process.exitCode (main connect p) = Some 1%Z <-> connect <> None)
    /\ (process.exitCode (main connect p) = None <-> connect = None)
    /\ (forall err, connect = Some err -> message = "Fatal error: " +:+ err).
Proof.
  intros Hp. destruct connect as [err |]; simpl.
  - exists ("Fatal error: " +:+ err). repeat split; try discriminate; congruence.
  - exists "mcp-house-rules running on stdio". rewrite Hp.
    repeat split; try discriminate; congruence.
Qed.

Lemma main_keeps_stdout_clean_witness :
  exists message,
    process.stdout (main (Some "Error: EPIPE") (process.mk "" "" None)) = ""
    /\ process.stderr (main (Some "Error: EPIPE") (process.mk "" "" None)) =
         "" +:+ message +:+ nl.
Proof.
  destruct (main_keeps_stdout_clean (Some "Error: EPIPE") (process.mk "" "" None) eq_refl)
    as (message & H1 & H2 & _).
  exists message. split; [exact H1 | exact H2].
Defined.

(** ** What reaches the client *)

(** X15. Only the standard output of git reaches the client as content: two
    runs of the same request whose children settled alike, up to what they
    wrote to standard error and up to why a child was rejected, return the
    same content if they return at all. *)
Theorem content_depends_on_stdout_only {World : Type} `{Surroundings World}
    (execFile : World -> Invocation -> settled * World) (w w' : World)
    (params : RequestParams) :
  Forall2 (fun x y : Invocation * settled => same_stdout x.2 y.2)
          (trace execFile (CallToolHandler params) w)
          (trace execFile (CallToolHandler params) w') ->
  forall r,
    result execFile (CallToolHandler params) w = Returned r ->
    result execFile (CallToolHandler params) w' = Returned r.
Proof.
  unfold trace, result, CallToolHandler, parse.
  destruct (String.eqb (name params) "git_context"); simpl;
    [| intros _ r Hr; exact Hr].
  destruct (Zod.parse GitContextSchema (arguments params)) as [a | iss]; simpl;
    [| intros _ r Hr; exact Hr].
  walk_handler execFile;
    intros Hsame r Hr; try discriminate Hr; invert_Forall2; simpl in *;
    try contradiction; congruence.
Qed.

Lemma content_depends_on_stdout_only_witness :
  result (Sample.execFile_limited 1)
         (CallToolHandler (Sample.call {[ "repoPath" := JStr "/tmp" ]})) 5%nat =
    Returned (mkToolResult [TextContent "Not a git repository: /tmp"]).
Proof.
  apply (content_depends_on_stdout_only (Sample.execFile_limited 1) 0%nat 5%nat
           (Sample.call {[ "repoPath" := JStr "/tmp" ]})).
  - vm_compute. repeat constructor.
  - reflexivity.
Defined.

(** ** What a validation error lists *)

Lemma parse_issues (m : gmap string json) (iss : list Zod.ZodIssue) :
  Zod.parse GitContextSchema (Some (JObj m)) = inr iss ->
  iss = Zod.issues_of (path_schema ["repoPath"] (m !! "repoPath"))
        ++ Zod.issues_of (count_schema ["maxCommits"] (m !! "maxCommits")).
Proof.
  rewrite GitContextSchema_parse_object.
  destruct (path_schema _ _) as [i1 | p [| x i1]],
           (count_schema _ _) as [i2 | n [| y i2]]; simpl; congruence.
Qed.

Lemma path_issues (v : option json) :
  (Zod.issues_of (path_schema ["repoPath"] v) = []
   <-> exists p, v = Some (JStr p) /\ p <> "")
  /\ Forall (fun i => Zod.path i = ["repoPath"])
            (Zod.issues_of (path_schema ["repoPath"] v)).
Proof.
  destruct v as [[| | | s | |] |];
    try (rewrite path_schema_other by discriminate; simpl; split;
         [split; [discriminate | intros (p & H & _); discriminate H]
         | repeat constructor]).
  rewrite path_schema_string. destruct s as [| c s]; simpl; split;
    try solve [repeat constructor].
  - split; [discriminate | intros (p & [= <-] & H); congruence].
  - split; [intros _; eexists; split; [reflexivity | discriminate] | reflexivity].
Qed.

Lemma count_issues (v : option json) :
  (Zod.issues_of (count_schema ["maxCommits"] v) <> []
   <-> exists x, v = Some x /\ forall n, x = JNum n -> valid_count n = false)
  /\ Forall (fun i => Zod.path i = ["maxCommits"])
            (Zod.issues_of (count_schema ["maxCommits"] v)).
Proof.
  destruct v as [[| | n | | |] |];
    try (rewrite count_schema_other by discriminate; simpl; split;
         [split; [intros _; eexists; split; [reflexivity | discriminate] | discriminate]
         | repeat constructor]).
  - split.
    + destruct (count_schema_number ["maxCommits"] n) as (iss & E & Hv).
      rewrite E. simpl. split.
      * intros Hne. exists (JNum n). split; [reflexivity |]. intros n' [= <-].
        destruct (valid_count n); [now destruct Hne; apply Hv | reflexivity].
      * intros (x & [= <-] & H) Hnil. apply Hv in Hnil.
        rewrite (H n eq_refl) in Hnil. discriminate.
    + unfold count_schema, Zod.default, Zod.max, Zod.min, Zod.int, Zod.check,
        Zod.number.
      destruct (Zod.isInteger n), (Qle_bool 1 n), (Qle_bool n 50); simpl;
        repeat constructor.
  - rewrite count_schema_absent. simpl. split; [| constructor].
    split; [congruence | intros (x & H & _); discriminate H].
Qed.

(** X16. A validation error lists every field that is wrong, and only
    those: its issues all sit at [repoPath] or at [maxCommits]; there is one
    at [repoPath] exactly when that key is not a non-empty string, and one
    at [maxCommits] exactly when that key is present and is not an integer
    from 1 to 50. *)
Theorem validation_error_lists_each_field (m : gmap string json)
    (iss : list Zod.ZodIssue) :
  Zod.parse GitContextSchema (Some (JObj m)) = inr iss ->
  (forall issue, In issue iss ->
     Zod.path issue = ["repoPath"] \/ Zod.path issue = ["maxCommits"])
  /\ ((exists issue, In issue iss /\ Zod.path issue = ["repoPath"])
      <-> ~ exists p, m !! "repoPath" = Some (JStr p) /\ p <> "")
  /\ ((exists issue, In issue iss /\ Zod.path issue = ["maxCommits"])
      <-> exists v, m !! "maxCommits" = Some v
                    /\ forall n, v = JNum n -> valid_count n = false).
Proof.
  intros H. apply parse_issues in H. subst iss.
  destruct (path_issues (m !! "repoPath")) as [Hp Fp].
  destruct (count_issues (m !! "maxCommits")) as [Hc Fc].
  rewrite List.Forall_forall in Fp, Fc.
  split; [| split].
  - intros issue Hin. apply in_app_or in Hin as [Hin | Hin]; auto.
  - rewrite <- Hp. split.
    + intros (issue & Hin & Hpath) Hnil. apply in_app_or in Hin as [Hin | Hin].
      * rewrite Hnil in Hin. destruct Hin.
      * apply Fc in Hin. congruence.
    + intros Hne. destruct (Zod.issues_of (path_schema _ _)) as [| i l] eqn:E;
        [congruence |].
      exists i. split; [simpl; auto | apply Fp; simpl; auto].
  - rewrite <- Hc. split.
    + intros (issue & Hin & Hpath) Hnil. apply in_app_or in Hin as [Hin | Hin].
      * apply Fp in Hin. congruence.
      * rewrite Hnil in Hin. destruct Hin.
    + intros Hne. destruct (Zod.issues_of (count_schema _ _)) as [| i l] eqn:E;
        [congruence |].
      exists i. split; [apply in_or_app; right; simpl; auto | apply Fc; simpl; auto].
Qed.

Lemma validation_error_lists_each_field_witness :
  exists iss,
    Zod.parse GitContextSchema
      (Some (JObj {[ "repoPath" := JStr ""; "maxCommits" := JNum 51 ]})) = inr iss
    /\ (exists issue, In issue iss /\ Zod.path issue = ["repoPath"])
    /\ (exists issue, In issue iss /\ Zod.path issue = ["maxCommits"]).
Proof.
  eexists. split; [vm_compute; reflexivity |].
  destruct (validation_error_lists_each_field
              {[ "repoPath" := JStr ""; "maxCommits" := JNum 51 ]}
              [Zod.mkIssue Zod.too_small ["repoPath"];
               Zod.mkIssue Zod.too_big ["maxCommits"]]) as (_ & Hp & Hc).
  - vm_compute. reflexivity.
  - split.
    + apply Hp. intros (p & H & Hne). vm_compute in H. congruence.
    + apply Hc. exists (JNum 51). split; [reflexivity |]. now intros n [= <-].
Defined.
